(** * PrimoExampleBot: the persistence manager of [database/database.py]

    A shallow embedding of the role-assignment and message-statistics layer
    ([BotDatabase]) together with the parts of Python's [str] and [datetime]
    that it calls, followed by the properties of the specification.

    Conventions.
    - A Python [str] is a list of Unicode code points.
    - A [datetime] keeps the fields Python keeps (year .. microsecond, tzinfo);
      the calendar helpers are those of CPython's [datetime] module.
    - The tables are the rows the ORM was handed; [users] is keyed by its
      primary key, the other tables are row lists in insertion order.
    - Every [BotDatabase] method opens one session, so a method is a function
      from the stored state to a result and the committed state. *)

From stdpp Require Import gmap list strings sorting.
From Stdlib Require Import ZArith Lia.


Local Open Scope Z_scope.

(** ** Python strings *)

Module PyStr.

Abbreviation codepoint := N (only parsing).
Abbreviation str := (list codepoint) (only parsing).

(** [str.isspace] on one character (CPython's [_PyUnicode_IsWhitespace]). *)
Definition is_space (c : codepoint) : bool :=
  ((0x09 <=? c) && (c <=? 0x0D) || (0x1C <=? c) && (c <=? 0x20)
   || (c =? 0x85) || (c =? 0xA0) || (c =? 0x1680)
   || (0x2000 <=? c) && (c <=? 0x200A)
   || (c =? 0x2028) || (c =? 0x2029) || (c =? 0x202F) || (c =? 0x205F)
   || (c =? 0x3000))%N.

Fixpoint lstrip (s : str) : str :=
  match s with
  | [] => []
  | c :: s' => if is_space c then lstrip s' else s
  end.

Definition rstrip (s : str) : str := rev (lstrip (rev s)).

(** [s.strip()] *)
Definition strip (s : str) : str := rstrip (lstrip s).

Fixpoint startswith (s p : str) : bool :=
  match p, s with
  | [], _ => true
  | _ :: _, [] => false
  | a :: p', b :: s' => (a =? b)%N && startswith s' p'
  end.

(** [sub in s] *)
Fixpoint contains (sub s : str) : bool :=
  startswith s sub ||
  match s with
  | [] => false
  | _ :: s' => contains sub s'
  end.

(** [s.replace(old, new)] for a non-empty [old]: scan left to right; at a
    match emit [new] and skip the matched characters. *)
Fixpoint replace_from (old new s : str) (skip : nat) : str :=
  match s with
  | [] => []
  | c :: s' =>
      match skip with
      | S k => replace_from old new s' k
      | O =>
          if startswith s old
          then new ++ replace_from old new s' (pred (length old))
          else c :: replace_from old new s' O
      end
  end.

Definition replace (s old new : str) : str := replace_from old new s O.

(** [s.split(sep)] for a one-character separator. *)
Fixpoint split (sep : codepoint) (s : str) : list str :=
  match s with
  | [] => [[]]
  | c :: s' =>
      if (c =? sep)%N then [] :: split sep s'
      else match split sep s' with
           | h :: t => (c :: h) :: t
           | [] => [[c]]
           end
  end.

(** [sep.join(parts)] *)
Fixpoint join (sep : str) (parts : list str) : str :=
  match parts with
  | [] => []
  | [p] => p
  | p :: rest => p ++ sep ++ join sep rest
  end.

(** Binary order of two strings, by code point. *)
Fixpoint leb (a b : str) : bool :=
  match a, b with
  | [], _ => true
  | _ :: _, [] => false
  | x :: a', y :: b' => (x <? y)%N || ((x =? y)%N && leb a' b')
  end.

Definition LF : codepoint := 0x0A%N.

End PyStr.

(** ** Python datetimes *)

Module PyDatetime.

Definition MINYEAR : Z := 1.
Definition MAXYEAR : Z := 9999.
Definition MAXORDINAL : Z := 3652059.

Definition is_leap (year : Z) : bool :=
  (year mod 4 =? 0) && (negb (year mod 100 =? 0) || (year mod 400 =? 0)).

Definition DAYS_IN_MONTH (month : Z) : Z :=
  match month with
  | 1 => 31 | 2 => 28 | 3 => 31 | 4 => 30 | 5 => 31 | 6 => 30
  | 7 => 31 | 8 => 31 | 9 => 30 | 10 => 31 | 11 => 30 | 12 => 31
  | _ => -1
  end.

Definition DAYS_BEFORE_MONTH (month : Z) : Z :=
  match month with
  | 1 => 0 | 2 => 31 | 3 => 59 | 4 => 90 | 5 => 120 | 6 => 151
  | 7 => 181 | 8 => 212 | 9 => 243 | 10 => 273 | 11 => 304 | 12 => 334
  | _ => -1
  end.

Definition days_before_year (year : Z) : Z :=
  let y := year - 1 in y * 365 + y / 4 - y / 100 + y / 400.

Definition days_in_month (year month : Z) : Z :=
  if (month =? 2) && is_leap year then 29 else DAYS_IN_MONTH month.

Definition days_before_month (year month : Z) : Z :=
  DAYS_BEFORE_MONTH month + (if (2 <? month) && is_leap year then 1 else 0).

Definition ymd2ord (year month day : Z) : Z :=
  days_before_year year + days_before_month year month + day.

Definition DI400Y : Z := 146097.
Definition DI100Y : Z := 36524.
Definition DI4Y : Z := 1461.

(** [_ord2ymd]: ordinal to (year, month, day), 0001-01-01 being day 1. *)
Definition ord2ymd (n : Z) : Z * Z * Z :=
  let n := n - 1 in
  let n400 := n / DI400Y in let n := n mod DI400Y in
  let year := n400 * 400 + 1 in
  let n100 := n / DI100Y in let n := n mod DI100Y in
  let n4 := n / DI4Y in let n := n mod DI4Y in
  let n1 := n / 365 in let n := n mod 365 in
  let year := year + (n100 * 100 + n4 * 4 + n1) in
  if (n1 =? 4) || (n100 =? 4) then (year - 1, 12, 31)
  else
    let leapyear := (n1 =? 3) && (negb (n4 =? 24) || (n100 =? 3)) in
    let month := Z.shiftr (n + 50) 5 in
    let preceding :=
      DAYS_BEFORE_MONTH month + (if (2 <? month) && leapyear then 1 else 0) in
    let '(month, preceding) :=
      if n <? preceding
      then (month - 1,
            preceding - (DAYS_IN_MONTH (month - 1)
                         + (if (month - 1 =? 2) && leapyear then 1 else 0)))
      else (month, preceding) in
    (year, month, n - preceding + 1).

(** The month search that ends [_ord2ymd], for the day number [n] within
    the year (0-based) and the leap flag of that year. *)
Definition month_day (leap : bool) (n : Z) : Z * Z :=
  let month := Z.shiftr (n + 50) 5 in
  let preceding :=
    DAYS_BEFORE_MONTH month + (if (2 <? month) && leap then 1 else 0) in
  let '(month, preceding) :=
    if n <? preceding
    then (month - 1,
          preceding - (DAYS_IN_MONTH (month - 1)
                       + (if (month - 1 =? 2) && leap then 1 else 0)))
    else (month, preceding) in
  (month, n - preceding + 1).

(** Checker: [month_day] lands on a real month and day whose ordinal within
    the year is [n + 1]. *)
Definition month_day_ok (leap : bool) (n : Z) : bool :=
  let '(m, d) := month_day leap n in
  (1 <=? m) && (m <=? 12) && (1 <=? d) &&
  (DAYS_BEFORE_MONTH m + (if (2 <? m) && leap then 1 else 0) + d =? n + 1).

(** A [datetime]; [tzinfo] is [None] for a naive value and the UTC offset in
    microseconds for an aware one ([timezone.utc] is [Some 0]). *)
Record datetime := mk_datetime {
  year : Z; month : Z; day : Z;
  hour : Z; minute : Z; second : Z; microsecond : Z;
  tzinfo : option Z
}.

Definition utc : option Z := Some 0.

Definition DAY_US : Z := 86400 * 1000000.

(** The values the [datetime] constructor accepts. *)
Definition valid (dt : datetime) : Prop :=
  MINYEAR <= year dt <= MAXYEAR /\ 1 <= month dt <= 12 /\
  1 <= day dt <= days_in_month (year dt) (month dt) /\
  0 <= hour dt < 24 /\ 0 <= minute dt < 60 /\ 0 <= second dt < 60 /\
  0 <= microsecond dt < 1000000 /\
  match tzinfo dt with Some off => - DAY_US < off < DAY_US | None => True end.

Definition toordinal (dt : datetime) : Z := ymd2ord (year dt) (month dt) (day dt).

(** [dt.weekday()]: Monday is 0. *)
Definition weekday (dt : datetime) : Z := (toordinal dt + 6) mod 7.

(** [dt.replace(tzinfo=tz)] *)
Definition replace_tzinfo (dt : datetime) (tz : option Z) : datetime :=
  mk_datetime (year dt) (month dt) (day dt)
              (hour dt) (minute dt) (second dt) (microsecond dt) tz.

(** [dt.replace(hour=0, minute=0, second=0, microsecond=0)] *)
Definition replace_midnight (dt : datetime) : datetime :=
  mk_datetime (year dt) (month dt) (day dt) 0 0 0 0 (tzinfo dt).

(** [dt.replace(day=1, hour=0, minute=0, second=0, microsecond=0)] *)
Definition replace_first_midnight (dt : datetime) : datetime :=
  mk_datetime (year dt) (month dt) 1 0 0 0 0 (tzinfo dt).

(** [dt - timedelta(days=k)]: [None] stands for Python's [OverflowError]. *)
Definition sub_days (dt : datetime) (k : Z) : option datetime :=
  let days := toordinal dt - k in
  if (0 <? days) && (days <=? MAXORDINAL) then
    let '(y, m, d) := ord2ymd days in
    Some (mk_datetime y m d (hour dt) (minute dt) (second dt)
                      (microsecond dt) (tzinfo dt))
  else None.

(** The place on the UTC time line, in microseconds (the ordinal day, the
    time of day, less the UTC offset): what two aware datetimes are compared
    by. A naive value is read as UTC. *)
Definition utc_micros (dt : datetime) : Z :=
  ((toordinal dt * 86400 + hour dt * 3600 + minute dt * 60 + second dt)
   * 1000000 + microsecond dt) - default 0 (tzinfo dt).

(** [a >= b] *)
Definition ge (a b : datetime) : bool := utc_micros b <=? utc_micros a.

End PyDatetime.

(** ** The stored entities *)

Inductive UserStatus := ACTIVE | ADMIN | BANNED.

Inductive RoleRegion :=
  | MONDSTADT | LIYUE | INAZUMA | SUMERU | FONTAINE | NATLAN | SNEZHNAYA
  | KHAENRIAH | GENSHIN_OTHER
  | HSR_STAR | HSR_GERTA | HSR_YARILO | HSR_LOFU | HSR_PENACONY
  | HSR_AMPHOREUS | HSR_HUNTER | HSR_KMM | HSR_EONS | HSR_FIRE_MANSION
  | HSR_LORDS | HSR_OTHER | HSR_FATE.

(** An ASCII literal as a Python string. *)
Fixpoint lit (s : String.string) : PyStr.str :=
  match s with
  | String.EmptyString => []
  | String.String a s' => Ascii.N_of_ascii a :: lit s'
  end.

(** [region.name]: the identifier of the enum member. *)
Definition RoleRegion_name (r : RoleRegion) : PyStr.str :=
  lit match r with
      | MONDSTADT => "MONDSTADT" | LIYUE => "LIYUE" | INAZUMA => "INAZUMA"
      | SUMERU => "SUMERU" | FONTAINE => "FONTAINE" | NATLAN => "NATLAN"
      | SNEZHNAYA => "SNEZHNAYA" | KHAENRIAH => "KHAENRIAH"
      | GENSHIN_OTHER => "GENSHIN_OTHER"
      | HSR_STAR => "HSR_STAR" | HSR_GERTA => "HSR_GERTA"
      | HSR_YARILO => "HSR_YARILO" | HSR_LOFU => "HSR_LOFU"
      | HSR_PENACONY => "HSR_PENACONY" | HSR_AMPHOREUS => "HSR_AMPHOREUS"
      | HSR_HUNTER => "HSR_HUNTER" | HSR_KMM => "HSR_KMM"
      | HSR_EONS => "HSR_EONS" | HSR_FIRE_MANSION => "HSR_FIRE_MANSION"
      | HSR_LORDS => "HSR_LORDS" | HSR_OTHER => "HSR_OTHER"
      | HSR_FATE => "HSR_FATE"
      end%string.

(** The surrogate integer keys of [user_messages], [roles] and
    [role_messages] and the audit columns [created_at]/[updated_at] of
    [users] are assigned by the storage layer and read by no operation of the
    manager; the rows below carry the remaining columns. *)

Module User.
Record t := mk {
  id : Z;
  username : option PyStr.str;
  full_name : option PyStr.str;
  status : UserStatus
}.
Definition set_status (u : t) (s : UserStatus) : t :=
  mk (id u) (username u) (full_name u) s.
End User.

Module UserMessage.
Record t := mk {
  user_id : Z;
  message_text : PyStr.str;
  created_at : PyDatetime.datetime
}.
End UserMessage.

Module Role.
Record t := mk {
  name : PyStr.str;
  region : RoleRegion;
  occupied_by : option Z
}.
Definition set_occupied_by (r : t) (o : option Z) : t :=
  mk (name r) (region r) o.
End Role.

Module RoleMessage.
Record t := mk {
  game_type : PyStr.str;
  channel_id : Z;
  message_id : Z;
  message_text : PyStr.str
}.
End RoleMessage.

Record Database := mk_Database {
  users : gmap Z User.t;
  user_messages : list UserMessage.t;
  roles : list Role.t;
  role_messages : list RoleMessage.t
}.

Definition empty_db : Database := mk_Database ∅ [] [] [].

Definition set_users (db : Database) (us : gmap Z User.t) : Database :=
  mk_Database us (user_messages db) (roles db) (role_messages db).

Definition set_roles (db : Database) (rs : list Role.t) : Database :=
  mk_Database (users db) (user_messages db) rs (role_messages db).

Definition set_role_messages (db : Database) (ms : list RoleMessage.t) : Database :=
  mk_Database (users db) (user_messages db) (roles db) ms.

(** ** Results and exceptions *)

Inductive exn := MultipleResultsFound | OverflowError.

Inductive result (A : Type) :=
  | Ok (a : A)
  | Raise (e : exn).
Arguments Ok {A} a.
Arguments Raise {A} e.

(** [Result.scalar_one_or_none()] *)
Definition scalar_one_or_none {A} (rows : list A) : result (option A) :=
  match rows with
  | [] => Ok None
  | [r] => Ok (Some r)
  | _ :: _ :: _ => Raise MultipleResultsFound
  end.

#[global] Instance UserStatus_eq_dec : EqDecision UserStatus.
Proof. solve_decision. Defined.

(** ** Period boundaries *)

(** [_start_of_day] *)
Definition _start_of_day (dt : PyDatetime.datetime) : PyDatetime.datetime :=
  PyDatetime.replace_midnight dt.

(** [_start_of_week_monday] *)
Definition _start_of_week_monday (dt : PyDatetime.datetime)
  : result PyDatetime.datetime :=
  match PyDatetime.sub_days dt (PyDatetime.weekday dt) with
  | Some monday => Ok (PyDatetime.replace_midnight monday)
  | None => Raise OverflowError
  end.

(** [_start_of_month] *)
Definition _start_of_month (dt : PyDatetime.datetime) : PyDatetime.datetime :=
  PyDatetime.replace_first_midnight dt.

(** ** Users *)

(** [BotDatabase.get_user] *)
Definition get_user (db : Database) (user_id : Z) : option User.t :=
  users db !! user_id.

(** [BotDatabase.add_user] *)
Definition add_user (db : Database) (user_id : Z)
    (username full_name : option PyStr.str) (is_admin : bool) : Database :=
  match users db !! user_id with
  | Some _ => db
  | None =>
      let status := if is_admin then ADMIN else ACTIVE in
      let new_user := User.mk user_id username full_name status in
      set_users db (<[user_id := new_user]> (users db))
  end.

(** [BotDatabase.set_admin] *)
Definition set_admin (db : Database) (user_id : Z) (make_admin : bool) : Database :=
  match users db !! user_id with
  | None => db
  | Some user =>
      let user := User.set_status user (if make_admin then ADMIN else ACTIVE) in
      set_users db (<[user_id := user]> (users db))
  end.

(** [BotDatabase.ban_user] *)
Definition ban_user (db : Database) (user_id : Z) : Database :=
  match users db !! user_id with
  | None => db
  | Some user =>
      set_users db (<[user_id := User.set_status user BANNED]> (users db))
  end.

(** [BotDatabase.unban_user] *)
Definition unban_user (db : Database) (user_id : Z) : Database :=
  match users db !! user_id with
  | None => db
  | Some user =>
      if decide (User.status user = BANNED)
      then set_users db (<[user_id := User.set_status user ACTIVE]> (users db))
      else db
  end.

(** ** Messages and statistics *)

(** [BotDatabase.add_message]; [now] is the value [datetime.now(timezone.utc)]
    takes in this call. *)
Definition add_message (db : Database) (user_id : Z) (message_text : PyStr.str)
    (created_at : option PyDatetime.datetime) (now : PyDatetime.datetime)
  : Database :=
  let users' :=
    match users db !! user_id with
    | Some _ => users db
    | None => <[user_id := User.mk user_id None None ACTIVE]> (users db)
    end in
  let ts :=
    match created_at with
    | Some created_at =>
        match PyDatetime.tzinfo created_at with
        | None => PyDatetime.replace_tzinfo created_at PyDatetime.utc
        | Some _ => created_at
        end
    | None => now
    end in
  let record := UserMessage.mk user_id message_text ts in
  mk_Database users' (user_messages db ++ [record]) (roles db) (role_messages db).

(** What a [DateTime] column of the SQLite engine (the engine of
    [DEFAULT_DB_URL] and of the tests) gives back for a stored value: the
    wall-clock fields it kept as text, and no zone. *)
Definition sqlite_datetime (dt : PyDatetime.datetime) : PyDatetime.datetime :=
  PyDatetime.replace_tzinfo dt None.

(** A message row as a later session loads it. *)
Definition load_message (m : UserMessage.t) : UserMessage.t :=
  UserMessage.mk (UserMessage.user_id m) (UserMessage.message_text m)
    (sqlite_datetime (UserMessage.created_at m)).

(** [select(UserMessage).where(UserMessage.user_id == user_id)], the query
    the repository's tests read messages back with. *)
Definition select_user_messages (db : Database) (user_id : Z) : list UserMessage.t :=
  map load_message
    (filter (λ m, UserMessage.user_id m = user_id) (user_messages db)).

(** [_count_from] inside [get_message_stats]: the rows of the user whose
    timestamp is not before [since], compared as instants. The engine
    compares the stored wall-clock text; for timestamps in UTC (what
    [add_message] makes of an absent or a naive timestamp) and a boundary in
    UTC (every boundary of [get_message_stats]) the two orders are one, see
    [Windows.count_from_stored_order]. *)
Definition _count_from (db : Database) (user_id : Z) (since : PyDatetime.datetime) : Z :=
  Z.of_nat (length (filter
    (λ m, UserMessage.user_id m = user_id
          ∧ PyDatetime.ge (UserMessage.created_at m) since = true)
    (user_messages db))).

Definition epoch_start : PyDatetime.datetime :=
  PyDatetime.mk_datetime 1970 1 1 0 0 0 0 PyDatetime.utc.

(** [BotDatabase.get_message_stats]; [now] as in [add_message]. *)
Definition get_message_stats (db : Database) (user_id : Z) (now : PyDatetime.datetime)
  : result (Z * Z * Z * Z) :=
  let day_start := _start_of_day now in
  match _start_of_week_monday now with
  | Raise e => Raise e
  | Ok week_start =>
      let month_start := _start_of_month now in
      let day_count := _count_from db user_id day_start in
      let week_count := _count_from db user_id week_start in
      let month_count := _count_from db user_id month_start in
      let total_count := _count_from db user_id epoch_start in
      Ok (day_count, week_count, month_count, total_count)
  end.

(** ** The role board *)

(** The chat-edit capability: [edit_message_text chat_id message_id text] is
    [true] when the call returns and [false] when it raises. *)
Record Bot := mk_Bot { edit_message_text : Z → Z → PyStr.str → bool }.

(** One outbound [edit_message_text] call: chat, message, text. *)
Definition edit : Type := Z * Z * PyStr.str.

Definition CHECKMARK : PyStr.codepoint := 0x2705%N.
Definition CLOCK : PyStr.codepoint := 0x1F552%N.

(** The header markers: U+1D4E, "СПИСОК", "Если персонажа". *)
Definition markers : list PyStr.str :=
  [ [0x1D4E];
    [0x421; 0x41F; 0x418; 0x421; 0x41E; 0x41A];
    [0x415; 0x441; 0x43B; 0x438; 0x20; 0x43F; 0x435; 0x440; 0x441; 0x43E;
     0x43D; 0x430; 0x436; 0x430] ]%N.

(** Ascending order by [Role.name]; rows with equal names keep their order. *)
Fixpoint insert_by_name (r : Role.t) (rs : list Role.t) : list Role.t :=
  match rs with
  | [] => [r]
  | x :: rs' =>
      if PyStr.leb (Role.name r) (Role.name x) then r :: rs
      else x :: insert_by_name r rs'
  end.

Definition order_by_name (rs : list Role.t) : list Role.t :=
  foldr insert_by_name [] rs.

(** [BotDatabase.get_role_status] *)
Definition get_role_status (db : Database) : list (PyStr.str * option Z) :=
  map (λ r, (Role.name r, Role.occupied_by r)) (order_by_name (roles db)).

(** [{name: user_id for name, user_id in roles_status}] *)
Definition role_status_dict (roles_status : list (PyStr.str * option Z))
  : gmap PyStr.str (option Z) :=
  foldl (λ d p, <[p.1 := p.2]> d) ∅ roles_status.

(** The line loop of [update_role_message]: [updated_lines] after the loop. *)
Definition update_lines (role_status_dict : gmap PyStr.str (option Z))
    (lines : list PyStr.str) : list PyStr.str :=
  foldl
    (λ updated_lines line,
       if bool_decide (PyStr.strip line = [])
          || existsb (λ marker, PyStr.contains marker line) markers
       then updated_lines ++ [line]
       else
         let role_name :=
           PyStr.strip
             (PyStr.replace (PyStr.replace (PyStr.strip line) [CHECKMARK] [])
                            [CLOCK] []) in
         let updated_line :=
           match role_status_dict !! role_name with
           | Some (Some _) => role_name ++ [0x20%N; CHECKMARK]
           | Some None => role_name
           | None => line
           end in
         updated_lines ++ [updated_line])
    [] lines.

(** [updated_text] of [update_role_message], from the role status list and
    the stored board text. *)
Definition updated_text (roles_status : list (PyStr.str * option Z))
    (message_text : PyStr.str) : PyStr.str :=
  let d := role_status_dict roles_status in
  let lines := PyStr.split PyStr.LF message_text in
  PyStr.join [PyStr.LF] (update_lines d lines).

(** [BotDatabase.update_role_message]: the value returned (or the exception)
    and the edit calls made. *)
Definition update_role_message (db : Database) (game_type : PyStr.str) (bot : Bot)
  : result bool * list edit :=
  match scalar_one_or_none
          (filter (λ m, RoleMessage.game_type m = game_type) (role_messages db)) with
  | Raise e => (Raise e, [])
  | Ok None => (Ok false, [])
  | Ok (Some role_message) =>
      let roles_status := get_role_status db in
      let text := updated_text roles_status (RoleMessage.message_text role_message) in
      let chat_id := RoleMessage.channel_id role_message in
      let message_id := RoleMessage.message_id role_message in
      if edit_message_text bot chat_id message_id text
      then (Ok true, [(chat_id, message_id, text)])
      else (Ok false, [(chat_id, message_id, text)])
  end.

(** [BotDatabase.save_role_message] *)
Definition save_role_message (db : Database) (game_type : PyStr.str)
    (channel_id message_id : Z) (message_text : PyStr.str)
  : result unit * Database :=
  match scalar_one_or_none
          (filter (λ m, RoleMessage.game_type m = game_type) (role_messages db)) with
  | Raise e => (Raise e, db)
  | Ok existing =>
      let kept :=
        match existing with
        | Some _ => filter (λ m, RoleMessage.game_type m ≠ game_type) (role_messages db)
        | None => role_messages db
        end in
      let new_message := RoleMessage.mk game_type channel_id message_id message_text in
      (Ok tt, set_role_messages db (kept ++ [new_message]))
  end.

(** ** Roles *)

(** What a mutating role operation leaves behind: the value returned (or the
    exception raised), the committed state, and the edit calls made. *)
Record outcome (A : Type) := mk_outcome {
  returned : result A;
  stored : Database;
  sent : list edit
}.
Arguments mk_outcome {A} _ _ _.
Arguments returned {A} _.
Arguments stored {A} _.
Arguments sent {A} _.

(** [select(Role).where(Role.name == role_name)] *)
Definition select_role (db : Database) (role_name : PyStr.str) : list Role.t :=
  filter (λ r, Role.name r = role_name) (roles db).

(** [BotDatabase.get_role_by_name] *)
Definition get_role_by_name (db : Database) (role_name : PyStr.str)
  : result (option Role.t) :=
  scalar_one_or_none (select_role db role_name).

(** [BotDatabase.get_roles_by_user] *)
Definition get_roles_by_user (db : Database) (user_id : Z) : list PyStr.str :=
  map Role.name (filter (λ r, Role.occupied_by r = Some user_id) (roles db)).

(** The loop of [init_roles] over the rows visible to its session. *)
Fixpoint init_roles_loop (table : list Role.t)
    (new_roles : list (PyStr.str * RoleRegion)) : result (list Role.t) :=
  match new_roles with
  | [] => Ok table
  | (name, region) :: rest =>
      match scalar_one_or_none (filter (λ r, Role.name r = name) table) with
      | Raise e => Raise e
      | Ok (Some _) => init_roles_loop table rest
      | Ok None => init_roles_loop (table ++ [Role.mk name region None]) rest
      end
  end.

(** [BotDatabase.init_roles] *)
Definition init_roles (db : Database) (new_roles : list (PyStr.str * RoleRegion))
  : result unit * Database :=
  match init_roles_loop (roles db) new_roles with
  | Raise e => (Raise e, db)
  | Ok table => (Ok tt, set_roles db table)
  end.

(** ["hsr" if role.region.name.startswith("HSR_") else "genshin"] *)
Definition game_type_of (role : Role.t) : PyStr.str :=
  if PyStr.startswith (RoleRegion_name (Role.region role)) (lit "HSR_")
  then lit "hsr" else lit "genshin".

(** The write [role.occupied_by = o] on the row found under [role_name]. *)
Definition write_occupied_by (db : Database) (role_name : PyStr.str)
    (o : option Z) : Database :=
  set_roles db
    (map (λ r, if decide (Role.name r = role_name)
               then Role.set_occupied_by r o else r)
         (roles db)).

(** The lines that end both [assign_role] and [release_role] once the write
    is committed as [db']: [if bot: ... await self.update_role_message(game_type,
    bot)], whose result is dropped and whose exception propagates, then
    [return value]. *)
Definition update_board_then_return {A} (db' : Database) (role : Role.t)
    (bot : option Bot) (value : A) : outcome A :=
  match bot with
  | None => mk_outcome (Ok value) db' []
  | Some bot =>
      match update_role_message db' (game_type_of role) bot with
      | (Raise e, edits) => mk_outcome (Raise e) db' edits
      | (Ok _, edits) => mk_outcome (Ok value) db' edits
      end
  end.

(** [BotDatabase.assign_role] *)
Definition assign_role (db : Database) (role_name : PyStr.str) (user_id : Z)
    (bot : option Bot) : outcome bool :=
  match scalar_one_or_none (select_role db role_name) with
  | Raise e => mk_outcome (Raise e) db []
  | Ok None => mk_outcome (Ok false) db []
  | Ok (Some role) =>
      match Role.occupied_by role with
      | Some _ => mk_outcome (Ok false) db []
      | None =>
          match users db !! user_id with
          | None => mk_outcome (Ok false) db []
          | Some user =>
              if decide (User.status user = BANNED)
              then mk_outcome (Ok false) db []
              else
                let db' := write_occupied_by db role_name (Some user_id) in
                update_board_then_return db' role bot true
          end
      end
  end.

(** [BotDatabase.release_role] *)
Definition release_role (db : Database) (role_name : PyStr.str)
    (bot : option Bot) : outcome bool :=
  match scalar_one_or_none (select_role db role_name) with
  | Raise e => mk_outcome (Raise e) db []
  | Ok None => mk_outcome (Ok false) db []
  | Ok (Some role) =>
      match Role.occupied_by role with
      | None => mk_outcome (Ok false) db []
      | Some _ =>
          let db' := write_occupied_by db role_name None in
          update_board_then_return db' role bot true
      end
  end.

(** [BotDatabase.release_roles_by_user] *)
Definition release_roles_by_user (db : Database) (user_id : Z)
    (bot : option Bot) : outcome Z :=
  let held := filter (λ r, Role.occupied_by r = Some user_id) (roles db) in
  let count := Z.of_nat (length held) in
  match held with
  | [] => mk_outcome (Ok count) db []
  | _ :: _ =>
      let db' :=
        set_roles db
          (map (λ r, if decide (Role.occupied_by r = Some user_id)
                     then Role.set_occupied_by r None else r)
               (roles db)) in
      match bot with
      | None => mk_outcome (Ok count) db' []
      | Some bot =>
          match update_role_message db' (lit "genshin") bot with
          | (Raise e, edits) => mk_outcome (Raise e) db' edits
          | (Ok _, edits1) =>
              match update_role_message db' (lit "hsr") bot with
              | (Raise e, edits2) => mk_outcome (Raise e) db' (edits1 ++ edits2)
              | (Ok _, edits2) => mk_outcome (Ok count) db' (edits1 ++ edits2)
              end
          end
      end
  end.

(** ** Invariants of the stored state

    Role names are unique (the column is declared [unique]) and there is at
    most one board record per game type ([save_role_message] replaces the old
    record). *)
Definition db_wf (db : Database) : Prop :=
  NoDup (map Role.name (roles db)) ∧
  NoDup (map RoleMessage.game_type (role_messages db)).

(** ** Vocabulary of the specification *)

(** The ordering the specification states for the four counts. *)
Definition stats_chain (s : Z * Z * Z * Z) : Prop :=
  let '(day, week, month, total) := s in
  day <= week ∧ week <= month ∧ month <= total.

(** Monday 1970-01-05 00:00 UTC, the first week boundary after the epoch. *)
Definition first_monday : PyDatetime.datetime :=
  PyDatetime.mk_datetime 1970 1 5 0 0 0 0 PyDatetime.utc.

(** The board rule in the specification's words: a line is blank when it
    holds only whitespace, decorated when some marker occurs in it, and its
    candidate role name is what is left once the checkmark and clock
    characters and the surrounding whitespace are gone. *)
Definition whitespace (c : PyStr.codepoint) : Prop := PyStr.is_space c = true.

Definition blank (line : PyStr.str) : Prop := Forall whitespace line.

Definition has_marker (line : PyStr.str) : Prop :=
  ∃ marker pre post, marker ∈ markers ∧ line = pre ++ marker ++ post.

Definition bare_name (line : PyStr.str) : PyStr.str :=
  PyStr.strip (filter (λ c, c ≠ CHECKMARK ∧ c ≠ CLOCK) line).

Inductive line_synced (snapshot : list (PyStr.str * option Z)) (line : PyStr.str)
  : PyStr.str → Prop :=
  | synced_header :
      blank line ∨ has_marker line → line_synced snapshot line line
  | synced_occupied u :
      ¬ (blank line ∨ has_marker line) →
      (bare_name line, Some u) ∈ snapshot →
      line_synced snapshot line (bare_name line ++ [0x20%N; CHECKMARK])
  | synced_free :
      ¬ (blank line ∨ has_marker line) →
      (bare_name line, None) ∈ snapshot →
      line_synced snapshot line (bare_name line)
  | synced_unknown :
      ¬ (blank line ∨ has_marker line) →
      bare_name line ∉ (snapshot.*1) →
      line_synced snapshot line line.

(** What one pass of the line loop appends for [line]. *)
Definition update_line (role_status_dict : gmap PyStr.str (option Z))
    (line : PyStr.str) : PyStr.str :=
  if bool_decide (PyStr.strip line = [])
     || existsb (λ marker, PyStr.contains marker line) markers
  then line
  else
    let role_name :=
      PyStr.strip
        (PyStr.replace (PyStr.replace (PyStr.strip line) [CHECKMARK] [])
                       [CLOCK] []) in
    match role_status_dict !! role_name with
    | Some (Some _) => role_name ++ [0x20%N; CHECKMARK]
    | Some None => role_name
    | None => line
    end.

(** ** Sample data *)

Module Sample.
Import PyDatetime.

(** Thursday 2024-05-02, 12:00 UTC; the week began on Monday 2024-04-29. *)
Definition now : datetime := mk_datetime 2024 5 2 12 0 0 0 utc.

(** Tuesday of the same week, in the previous month (naive). *)
Definition tuesday : datetime := mk_datetime 2024 4 30 12 0 0 0 None.

Definition albedo : PyStr.str := lit "Albedo".
Definition kafka : PyStr.str := lit "Kafka".

(** One message of user 7, written on [tuesday]. *)
Definition db_messages : Database :=
  add_message empty_db 7 (lit "hi") (Some tuesday) now.

(** Two seeded roles, users 42 (active), 99 (admin) and 5 (banned). *)
Definition db_roles : Database :=
  let db := (init_roles empty_db [(albedo, MONDSTADT); (kafka, HSR_STAR)]).2 in
  let db := add_user db 42 (Some (lit "neo")) (Some (lit "Thomas Anderson")) false in
  let db := add_user db 99 None None true in
  ban_user (add_user db 5 None None false) 5.

(** A bot whose edits always go through. *)
Definition bot : Bot := mk_Bot (λ _ _ _, true).

(** A board for the Genshin roles: a header, a blank line, [albedo]
    flagged with a clock, and a free-text line. *)
Definition board : PyStr.str :=
  [0x421; 0x41F; 0x418; 0x421; 0x41E; 0x41A; PyStr.LF; PyStr.LF]%N
  ++ lit "  Albedo " ++ [CLOCK; PyStr.LF] ++ lit "Zhongli".

Definition db_board : Database :=
  (save_role_message db_roles (lit "genshin") (-100123456) 123 board).2.

(** Both boards posted; the second lists [kafka]. *)
Definition db_boards : Database :=
  (save_role_message db_board (lit "hsr") (-100123456) 124 (lit "Kafka")).2.
End Sample.

(** ** Queries over users and roles *)

#[global] Instance RoleRegion_eq_dec : EqDecision RoleRegion.
Proof. solve_decision. Defined.

(** The rows of [users] as a query without [order_by] returns them: in the
    order of the store. *)
Definition user_rows (db : Database) : list User.t := (map_to_list (users db)).*2.

(** [BotDatabase.get_all_users] *)
Definition get_all_users (db : Database) (include_banned : bool) : list User.t :=
  if include_banned then user_rows db
  else filter (λ u, User.status u ≠ BANNED) (user_rows db).

(** [BotDatabase.get_user_ids] *)
Definition get_user_ids (db : Database)
    (only_active include_admins order_asc : bool) : list Z :=
  let rows := user_rows db in
  let rows := if only_active then filter (λ u, User.status u ≠ BANNED) rows else rows in
  let rows := if include_admins then rows else filter (λ u, User.status u ≠ ADMIN) rows in
  let ids := map User.id rows in
  if order_asc then merge_sort Z.le ids else merge_sort (flip Z.le) ids.

(** [if region: stmt = stmt.where(Role.region == region)] *)
Definition where_region (region : option RoleRegion) (rs : list Role.t) : list Role.t :=
  match region with
  | Some region => filter (λ r, Role.region r = region) rs
  | None => rs
  end.

(** [BotDatabase.get_available_roles] *)
Definition get_available_roles (db : Database) (region : option RoleRegion)
  : list Role.t :=
  order_by_name
    (where_region region (filter (λ r, Role.occupied_by r = None) (roles db))).

(** [BotDatabase.get_occupied_roles] *)
Definition get_occupied_roles (db : Database) (region : option RoleRegion)
  : list Role.t :=
  order_by_name
    (where_region region (filter (λ r, Role.occupied_by r ≠ None) (roles db))).

(** Two roles in the order of [order_by(Role.name.asc())]. *)
Definition by_name (a b : Role.t) : Prop :=
  PyStr.leb (Role.name a) (Role.name b) = true.

(** [BotDatabase.get_roles_by_region] *)
Definition get_roles_by_region (db : Database) (region : RoleRegion) : list Role.t :=
  order_by_name (filter (λ r, Role.region r = region) (roles db)).

(** Ascending order of regions by the stored member name. *)
Fixpoint insert_region (g : RoleRegion) (gs : list RoleRegion) : list RoleRegion :=
  match gs with
  | [] => [g]
  | x :: gs' =>
      if PyStr.leb (RoleRegion_name g) (RoleRegion_name x) then g :: gs
      else x :: insert_region g gs'
  end.

(** The groups of [group_by(Role.region).order_by(Role.region.asc())]. *)
Definition region_groups (rs : list Role.t) : list RoleRegion :=
  foldr insert_region [] (remove_dups (map Role.region rs)).

(** [BotDatabase.get_region_stats]: the dictionary as its items in insertion
    order, each value as (total, occupied, free). *)
Definition get_region_stats (db : Database) : list (RoleRegion * (Z * Z * Z)) :=
  map (λ region,
         let group := filter (λ r, Role.region r = region) (roles db) in
         (region,
          (Z.of_nat (length group),
           Z.of_nat (length (filter (λ r, Role.occupied_by r ≠ None) group)),
           Z.of_nat (length (filter (λ r, Role.occupied_by r = None) group)))))
      (region_groups (roles db)).

(** ** The message counter middleware ([bot/middlewares/msg_mdw.py]) *)

(** [aiogram.enums.ChatType] *)
Inductive ChatType := SENDER | PRIVATE | GROUP | SUPERGROUP | CHANNEL.

(** The fields of an aiogram [Message] that the middleware reads. *)
Module Message.
Record t := mk {
  chat_type : ChatType;
  from_user_id : Z;
  from_user_is_bot : bool;
  from_user_username : option PyStr.str;
  from_user_full_name : PyStr.str;
  text : option PyStr.str;
  caption : option PyStr.str;
  date : PyDatetime.datetime
}.
End Message.

(** [a or b] on an optional string: [a] when it is a non-empty string. *)
Definition str_or (a b : option PyStr.str) : option PyStr.str :=
  match a with
  | Some (_ :: _) => a
  | _ => b
  end.

(** [message.text or message.caption or ""] *)
Definition message_text_of (message : Message.t) : PyStr.str :=
  default [] (str_or (str_or (Message.text message) (Message.caption message))
                     (Some [])).

(** [MessageCounterMiddleware.process_group_message] *)
Definition process_group_message (db : Database) (message : Message.t)
    (now : PyDatetime.datetime) : Database :=
  let user_id := Message.from_user_id message in
  let message_text := message_text_of message in
  let db := add_user db user_id (Message.from_user_username message)
              (Some (Message.from_user_full_name message)) false in
  add_message db user_id message_text (Some (Message.date message)) now.

(** An update reaching the middleware: a message or something else. *)
Inductive event := MessageEvent (message : Message.t) | OtherEvent.

(** What [MessageCounterMiddleware.__call__] does to the stored state before
    it hands the event on. *)
Definition message_counter (db : Database) (e : event)
    (now : PyDatetime.datetime) : Database :=
  match e with
  | OtherEvent => db
  | MessageEvent message =>
      match Message.chat_type message with
      | GROUP | SUPERGROUP =>
          if Message.from_user_is_bot message then db
          else process_group_message db message now
      | _ => db
      end
  end.

(** ** Runs of the manager *)

(** One call of a mutating method. *)
Inductive call :=
  | AddUser (user_id : Z) (username full_name : option PyStr.str) (is_admin : bool)
  | SetAdmin (user_id : Z) (make_admin : bool)
  | BanUser (user_id : Z)
  | UnbanUser (user_id : Z)
  | AddMessage (user_id : Z) (message_text : PyStr.str)
      (created_at : option PyDatetime.datetime) (now : PyDatetime.datetime)
  | InitRoles (new_roles : list (PyStr.str * RoleRegion))
  | AssignRole (role_name : PyStr.str) (user_id : Z) (bot : option Bot)
  | ReleaseRole (role_name : PyStr.str) (bot : option Bot)
  | ReleaseRolesByUser (user_id : Z) (bot : option Bot)
  | SaveRoleMessage (game_type : PyStr.str) (channel_id message_id : Z)
      (message_text : PyStr.str)
  | Counter (e : event) (now : PyDatetime.datetime).

(** The state a call leaves stored. *)
Definition run_call (db : Database) (c : call) : Database :=
  match c with
  | AddUser user_id username full_name is_admin =>
      add_user db user_id username full_name is_admin
  | SetAdmin user_id make_admin => set_admin db user_id make_admin
  | BanUser user_id => ban_user db user_id
  | UnbanUser user_id => unban_user db user_id
  | AddMessage user_id message_text created_at now =>
      add_message db user_id message_text created_at now
  | InitRoles new_roles => (init_roles db new_roles).2
  | AssignRole role_name user_id bot => stored (assign_role db role_name user_id bot)
  | ReleaseRole role_name bot => stored (release_role db role_name bot)
  | ReleaseRolesByUser user_id bot => stored (release_roles_by_user db user_id bot)
  | SaveRoleMessage game_type channel_id message_id message_text =>
      (save_role_message db game_type channel_id message_id message_text).2
  | Counter e now => message_counter db e now
  end.

(** The state after a sequence of calls. *)
Definition run (db : Database) (calls : list call) : Database :=
  foldl run_call db calls.

(** What holds of every state the manager builds: the keys of [users] are
    the ids of its rows, every message and every occupied role points to a
    stored user. *)
Definition users_keyed (db : Database) : Prop :=
  ∀ k u, users db !! k = Some u → User.id u = k.

Definition references_kept (db : Database) : Prop :=
  (∀ m, m ∈ user_messages db → is_Some (users db !! UserMessage.user_id m)) ∧
  (∀ r u, r ∈ roles db → Role.occupied_by r = Some u → is_Some (users db !! u)).

(** The three invariants together. *)
Abbreviation invariants db := (db_wf db ∧ users_keyed db ∧ references_kept db).

(** What no call removes: users, role names, recorded messages. *)
Abbreviation grows db db' :=
  ((∀ u, is_Some (users db !! u) → is_Some (users db' !! u)) ∧
   (∀ name, name ∈ map Role.name (roles db) → name ∈ map Role.name (roles db')) ∧
   user_messages db `prefix_of` user_messages db').

(** ** More sample data *)

Module Sample2.
Import Sample.

(** [albedo] held by user 42. *)
Definition db_albedo : Database := stored (assign_role db_roles albedo 42 None).

(** Both boards posted, [albedo] and [kafka] held by user 42. *)
Definition db_held : Database :=
  stored (assign_role (stored (assign_role db_boards albedo 42 None)) kafka 42 None).

(** A captioned photo sent to a supergroup by an unknown person. *)
Definition group_message : Message.t :=
  Message.mk SUPERGROUP 7 false (Some (lit "neo")) (lit "Thomas Anderson")
    None (Some (lit "photo")) tuesday.

(** The same sent in a private chat. *)
Definition private_message : Message.t :=
  Message.mk PRIVATE 7 false (Some (lit "neo")) (lit "Thomas Anderson")
    None (Some (lit "photo")) tuesday.

(** A short life of the manager. *)
Definition calls : list call :=
  [ InitRoles [(albedo, MONDSTADT); (kafka, HSR_STAR)];
    AddUser 42 (Some (lit "neo")) None false;
    AssignRole albedo 42 None;
    BanUser 42;
    Counter (MessageEvent group_message) now;
    ReleaseRolesByUser 42 None ].
End Sample2.

(** ** The message fixture of the tests ([tests/database/conftest.py]) *)

Module Fixture.
Import PyDatetime.

(** A reading of the clock: Thursday 2024-05-02, 12:00 UTC. *)
Definition now : datetime := mk_datetime 2024 5 2 12 0 0 0 utc.

Definition test_user : Z := 123456789.

(** [test_dates] of [test_user_with_messages] at that reading: [now] less
    40, 35, 20, 15, 8, 5 and 2 days, less 12 hours, less 1 hour, and [now]. *)
Definition test_dates : list datetime :=
  [ mk_datetime 2024 3 23 12 0 0 0 utc;
    mk_datetime 2024 3 28 12 0 0 0 utc;
    mk_datetime 2024 4 12 12 0 0 0 utc;
    mk_datetime 2024 4 17 12 0 0 0 utc;
    mk_datetime 2024 4 24 12 0 0 0 utc;
    mk_datetime 2024 4 27 12 0 0 0 utc;
    mk_datetime 2024 4 30 12 0 0 0 utc;
    mk_datetime 2024 5 2 0 0 0 0 utc;
    mk_datetime 2024 5 2 11 0 0 0 utc;
    now ].

(** The text of the [i]-th message, [i] counted from 0: the same two words
    and the number [i + 1]. *)
Definition test_text (i : nat) : PyStr.str :=
  [0x422; 0x435; 0x441; 0x442; 0x43E; 0x432; 0x43E; 0x435; 0x20;
   0x441; 0x43E; 0x43E; 0x431; 0x449; 0x435; 0x43D; 0x438; 0x435; 0x20]%N
  ++ nth i (lit <$> ["1"; "2"; "3"; "4"; "5"; "6"; "7"; "8"; "9"; "10"]%string) [].

(** The state after the fixtures [test_user] and [test_user_with_messages]:
    the user registered, then one [add_message] per date. *)
Definition db : Database :=
  foldl (λ d '(i, date), add_message d test_user (test_text i) (Some date) now)
        (add_user empty_db test_user (Some (lit "test_user"))
           (Some (lit "Test User")) false)
        (imap pair test_dates).

(** Wednesday 2024-05-08, 12:00 UTC: the week began on Monday the 6th. *)
Definition midweek : datetime := mk_datetime 2024 5 8 12 0 0 0 utc.

(** A naive timestamp, and the state a message is recorded in with it. *)
Definition T : datetime := mk_datetime 2024 4 30 12 0 0 0 None.
Definition db_user : Database :=
  add_user empty_db test_user (Some (lit "test_user")) (Some (lit "Test User")) false.
End Fixture.

(** * Properties *)

(** ** The calendar *)

Module CalendarFacts.
Import PyDatetime.

Lemma month_day_all (leap : bool) (n : Z) :
  0 <= n < 365 + (if leap then 1 else 0) -> month_day_ok leap n = true.
Proof.
  intros Hn.
  assert (H : forallb (fun k => month_day_ok leap (Z.of_nat k)) (seq 0 366) = true)
    by (destruct leap; vm_compute; reflexivity).
  rewrite forallb_forall in H.
  specialize (H (Z.to_nat n)). rewrite Z2Nat.id in H by lia.
  apply H. apply in_seq. destruct leap; lia.
Qed.

Lemma ord2ymd_month_day n :
  ord2ymd n =
  let n0 := n - 1 in
  let n400 := n0 / DI400Y in let r1 := n0 mod DI400Y in
  let n100 := r1 / DI100Y in let r2 := r1 mod DI100Y in
  let n4 := r2 / DI4Y in let r3 := r2 mod DI4Y in
  let n1 := r3 / 365 in let r4 := r3 mod 365 in
  let y := n400 * 400 + 1 + (n100 * 100 + n4 * 4 + n1) in
  if (n1 =? 4) || (n100 =? 4) then (y - 1, 12, 31)
  else let '(m, d) := month_day ((n1 =? 3) && (negb (n4 =? 24) || (n100 =? 3))) r4 in
       (y, m, d).
Proof.
  unfold ord2ymd, month_day. cbv zeta.
  destruct (_ || _); [reflexivity|].
  destruct (_ <? _); reflexivity.
Qed.

Ltac divmod_facts :=
  Z.to_euclidean_division_equations; lia.

Lemma is_leap_true y : is_leap y = true <-> y mod 4 = 0 /\ (y mod 100 <> 0 \/ y mod 400 = 0).
Proof.
  unfold is_leap. rewrite andb_true_iff, orb_true_iff, negb_true_iff.
  rewrite !Z.eqb_eq, Z.eqb_neq. tauto.
Qed.

Lemma is_leap_false y : is_leap y = false <-> y mod 4 <> 0 \/ (y mod 100 = 0 /\ y mod 400 <> 0).
Proof.
  unfold is_leap. rewrite andb_false_iff, orb_false_iff, negb_false_iff.
  rewrite !Z.eqb_eq, !Z.eqb_neq. tauto.
Qed.

Lemma days_before_next_year y :
  days_before_year (y + 1) = days_before_year y + 365 + (if is_leap y then 1 else 0).
Proof.
  unfold days_before_year. cbv zeta. replace (y + 1 - 1) with y by lia.
  destruct (is_leap y) eqn:E.
  - apply is_leap_true in E. divmod_facts.
  - apply is_leap_false in E. divmod_facts.
Qed.

Lemma days_before_year_mono y1 y2 : y1 <= y2 -> days_before_year y1 <= days_before_year y2.
Proof. unfold days_before_year. intros. divmod_facts. Qed.

Lemma day_of_year_bounds y m d :
  1 <= m <= 12 -> 1 <= d <= days_in_month y m ->
  1 <= days_before_month y m + d <= 365 + (if is_leap y then 1 else 0).
Proof.
  intros Hm Hd. unfold days_before_month, days_in_month in *.
  assert (Hc : m = 1 \/ m = 2 \/ m = 3 \/ m = 4 \/ m = 5 \/ m = 6 \/ m = 7 \/
               m = 8 \/ m = 9 \/ m = 10 \/ m = 11 \/ m = 12) by lia.
  destruct (is_leap y);
    repeat (destruct Hc as [-> | Hc]); try subst m; simpl in *; lia.
Qed.

Lemma ymd2ord_ord2ymd n :
  1 <= n ->
  let '(y, m, d) := ord2ymd n in ymd2ord y m d = n.
Proof.
  intros Hn. rewrite ord2ymd_month_day. cbv zeta.
  unfold DI400Y, DI100Y, DI4Y.
  set (n0 := n - 1).
  set (n400 := n0 / 146097). set (r1 := n0 mod 146097).
  set (n100 := r1 / 36524). set (r2 := r1 mod 36524).
  set (n4 := r2 / 1461). set (r3 := r2 mod 1461).
  set (n1 := r3 / 365). set (r4 := r3 mod 365).
  assert (H1 : n0 = 146097 * n400 + r1 /\ 0 <= r1 < 146097)
    by (subst n400 r1; split; [apply Z.div_mod; lia | apply Z.mod_pos_bound; lia]).
  assert (H2 : r1 = 36524 * n100 + r2 /\ 0 <= r2 < 36524)
    by (subst n100 r2; split; [apply Z.div_mod; lia | apply Z.mod_pos_bound; lia]).
  assert (H3 : r2 = 1461 * n4 + r3 /\ 0 <= r3 < 1461)
    by (subst n4 r3; split; [apply Z.div_mod; lia | apply Z.mod_pos_bound; lia]).
  assert (H4 : r3 = 365 * n1 + r4 /\ 0 <= r4 < 365)
    by (subst n1 r4; split; [apply Z.div_mod; lia | apply Z.mod_pos_bound; lia]).
  assert (0 <= n400) by (subst n400; apply Z.div_pos; lia).
  clearbody n400 r1 n100 r2 n4 r3 n1 r4.
  assert (0 <= n100 <= 4 /\ 0 <= n4 <= 24 /\ 0 <= n1 <= 4) as (? & ? & ?) by lia.
  destruct ((n1 =? 4) || (n100 =? 4)) eqn:Hsp.
  - apply orb_true_iff in Hsp. rewrite !Z.eqb_eq in Hsp.
    unfold ymd2ord, days_before_month. simpl DAYS_BEFORE_MONTH.
    change (2 <? 12) with true. cbn [andb].
    pose proof (days_before_next_year (n400 * 400 + 1 + (n100 * 100 + n4 * 4 + n1) - 1)) as Hy.
    replace (n400 * 400 + 1 + (n100 * 100 + n4 * 4 + n1) - 1 + 1)
      with (n400 * 400 + 1 + (n100 * 100 + n4 * 4 + n1)) in Hy by lia.
    assert (days_before_year (n400 * 400 + 1 + (n100 * 100 + n4 * 4 + n1)) = n).
    { unfold days_before_year. cbv zeta. divmod_facts. }
    destruct (is_leap _); lia.
  - apply orb_false_iff in Hsp. rewrite !Z.eqb_neq in Hsp.
    set (leap := (n1 =? 3) && (negb (n4 =? 24) || (n100 =? 3))).
    assert (Hleap : is_leap (n400 * 400 + 1 + (n100 * 100 + n4 * 4 + n1)) = leap).
    { subst leap. destruct ((n1 =? 3) && _) eqn:E.
      - apply is_leap_true.
        rewrite andb_true_iff, orb_true_iff, negb_true_iff in E.
        rewrite !Z.eqb_eq, Z.eqb_neq in E. divmod_facts.
      - apply is_leap_false.
        rewrite andb_false_iff, orb_false_iff, negb_false_iff in E.
        rewrite !Z.eqb_neq, Z.eqb_eq in E. divmod_facts. }
    assert (Hr4 : 0 <= r4 < 365 + (if leap then 1 else 0)) by (destruct leap; lia).
    pose proof (month_day_all leap r4 Hr4) as Hm.
    unfold month_day_ok in Hm. destruct (month_day leap r4) as [m d].
    rewrite !andb_true_iff in Hm. rewrite !Z.leb_le, Z.eqb_eq in Hm.
    unfold ymd2ord, days_before_month. rewrite Hleap.
    unfold days_before_year. cbv zeta. divmod_facts.
Qed.

Lemma toordinal_bounds dt : valid dt -> 1 <= toordinal dt <= MAXORDINAL.
Proof.
  intros (Hy & Hm & Hd & _). unfold toordinal, ymd2ord.
  pose proof (day_of_year_bounds _ _ _ Hm Hd) as Hdoy.
  pose proof (days_before_next_year (year dt)) as Hnext.
  pose proof (days_before_year_mono 1 (year dt) (proj1 Hy)) as Hlo.
  pose proof (days_before_year_mono (year dt + 1) 10000) as Hhi.
  unfold MINYEAR, MAXYEAR, MAXORDINAL in *.
  change (days_before_year 1) with 0 in Hlo.
  change (days_before_year 10000) with 3652059 in Hhi.
  lia.
Qed.

End CalendarFacts.

(** ** Counting messages since a boundary *)

Module StatsFacts.
Import PyDatetime CalendarFacts.

Lemma length_filter_impl {A} (P Q : A → Prop)
    `{!∀ x, Decision (P x)} `{!∀ x, Decision (Q x)} (l : list A) :
  (∀ x, P x → Q x) → (length (filter P l) ≤ length (filter Q l))%nat.
Proof.
  intros HPQ. induction l as [|x l IH]; [done|].
  rewrite !filter_cons.
  destruct (decide (P x)) as [HP|HP].
  - rewrite decide_True by auto. simpl. lia.
  - destruct (decide (Q x)); simpl; lia.
Qed.

Lemma count_from_mono db user_id a b :
  utc_micros b <= utc_micros a →
  _count_from db user_id a <= _count_from db user_id b.
Proof.
  intros Hab. unfold _count_from. apply inj_le.
  apply length_filter_impl. intros m [Hu Hge]. split; [done|].
  unfold ge in *. apply Z.leb_le in Hge. apply Z.leb_le. lia.
Qed.

Lemma utc_micros_midnight dt :
  utc_micros (replace_midnight dt)
  = toordinal dt * 86400 * 1000000 - default 0 (tzinfo dt).
Proof. unfold utc_micros, replace_midnight, toordinal. simpl. lia. Qed.

Lemma weekday_range dt : 0 <= weekday dt < 7.
Proof. unfold weekday. apply Z.mod_pos_bound. lia. Qed.

Lemma start_of_week_ok now :
  valid now →
  ∃ week_start,
    _start_of_week_monday now = Ok week_start ∧
    utc_micros week_start
    = (toordinal now - weekday now) * 86400 * 1000000 - default 0 (tzinfo now).
Proof.
  intros Hv. pose proof (toordinal_bounds now Hv) as Hn.
  pose proof (weekday_range now) as Hw.
  assert (Hw' : weekday now <= toordinal now - 1).
  { unfold weekday in *. Z.to_euclidean_division_equations; lia. }
  unfold _start_of_week_monday, sub_days. cbv zeta.
  destruct ((0 <? _) && (_ <=? MAXORDINAL)) eqn:E.
  - pose proof (ymd2ord_ord2ymd (toordinal now - weekday now)) as Hrt.
    destruct (ord2ymd _) as [[y m] d].
    eexists; split; [reflexivity|].
    rewrite utc_micros_midnight. unfold toordinal at 1. simpl.
    rewrite Hrt by lia. reflexivity.
  - exfalso. apply andb_false_iff in E. rewrite Z.ltb_ge, Z.leb_gt in E. lia.
Qed.

End StatsFacts.

(** ** Rows selected by a unique key *)

Section Keyed.
Context {A K : Type} `{EqDecision K} (key : A → K).

Lemma filter_key_absent (k : K) (l : list A) :
  k ∉ map key l → filter (λ x, key x = k) l = [].
Proof.
  induction l as [|x l IH]; [done|].
  simpl. rewrite not_elem_of_cons. intros [Hne Hnot].
  rewrite filter_cons_False by congruence. auto.
Qed.

Lemma filter_key_nil (k : K) (l : list A) :
  filter (λ x, key x = k) l = [] → k ∉ map key l.
Proof.
  intros Hnil Hin. apply list_elem_of_fmap in Hin as (x & -> & Hx).
  assert (x ∈ filter (λ y, key y = key x) l) as Hf
    by (by apply list_elem_of_filter).
  rewrite Hnil in Hf. by apply elem_of_nil in Hf.
Qed.

Lemma filter_key_unique (x : A) (l : list A) :
  NoDup (map key l) → x ∈ l → filter (λ y, key y = key x) l = [x].
Proof.
  induction l as [|y l IH]; [by rewrite elem_of_nil|].
  simpl. rewrite NoDup_cons, elem_of_cons. intros [Hnot Hnd] [->|Hin].
  - rewrite filter_cons_True by done.
    by rewrite filter_key_absent.
  - rewrite filter_cons_False; [auto|].
    intros Heq. apply Hnot. rewrite Heq. by apply list_elem_of_fmap_2.
Qed.

Lemma filter_key_cases (k : K) (l : list A) :
  NoDup (map key l) →
  filter (λ x, key x = k) l = [] ∧ k ∉ map key l
  ∨ ∃ x, filter (λ y, key y = k) l = [x] ∧ x ∈ l ∧ key x = k.
Proof.
  intros Hnd. destruct (decide (k ∈ map key l)) as [Hin|Hnot].
  - right. apply list_elem_of_fmap in Hin as (x & -> & Hx).
    exists x. split_and!; [by apply filter_key_unique|done|done].
  - left. split; [by apply filter_key_absent|done].
Qed.

Lemma filter_other_keys (k : K) (l : list A) :
  NoDup (map key l) →
  NoDup (map key (filter (λ x, key x ≠ k) l)) ∧
  k ∉ map key (filter (λ x, key x ≠ k) l).
Proof.
  intros Hnd. split.
  - induction l as [|x l IH]; [done|].
    simpl in Hnd. apply NoDup_cons in Hnd as [Hnot Hnd].
    rewrite filter_cons. destruct (decide (key x ≠ k)); [|auto].
    simpl. apply NoDup_cons. split; [|auto].
    intros Hin. apply Hnot.
    apply list_elem_of_fmap in Hin as (y & -> & Hy).
    apply list_elem_of_filter in Hy as [_ Hy]. by apply list_elem_of_fmap_2.
  - intros Hin. apply list_elem_of_fmap in Hin as (y & -> & Hy).
    by apply list_elem_of_filter in Hy as [Hne _].
Qed.

Lemma NoDup_snoc_key (x : A) (l : list A) :
  NoDup (map key l) → key x ∉ map key l → NoDup (map key (l ++ [x])).
Proof.
  intros Hnd Hnot. rewrite map_app. simpl. apply NoDup_app.
  split_and!; [done| |apply NoDup_singleton].
  intros k Hk Hk'. apply list_elem_of_singleton in Hk'. by subst.
Qed.
End Keyed.

(** ** The invariant is kept *)

Module Invariant.

Lemma empty_db_wf : db_wf empty_db.
Proof. split; apply NoDup_nil_2. Qed.

Lemma add_user_wf db user_id username full_name is_admin :
  db_wf db → db_wf (add_user db user_id username full_name is_admin).
Proof. unfold add_user. by destruct (users db !! user_id). Qed.

Lemma set_admin_wf db user_id make_admin :
  db_wf db → db_wf (set_admin db user_id make_admin).
Proof. unfold set_admin. by destruct (users db !! user_id). Qed.

Lemma ban_user_wf db user_id : db_wf db → db_wf (ban_user db user_id).
Proof. unfold ban_user. by destruct (users db !! user_id). Qed.

Lemma unban_user_wf db user_id : db_wf db → db_wf (unban_user db user_id).
Proof.
  unfold unban_user. destruct (users db !! user_id); [|done].
  by destruct (decide _).
Qed.

Lemma add_message_wf db user_id message_text created_at now :
  db_wf db → db_wf (add_message db user_id message_text created_at now).
Proof. done. Qed.

Lemma init_roles_loop_NoDup new_roles : ∀ table table',
  NoDup (map Role.name table) →
  init_roles_loop table new_roles = Ok table' →
  NoDup (map Role.name table').
Proof.
  induction new_roles as [|[name region] rest IH]; intros table table' Hnd; simpl.
  - by intros [= <-].
  - destruct (filter_key_cases Role.name name table Hnd)
      as [[-> Hnot]|(x & -> & _)]; simpl; [|by apply IH].
    apply IH. by apply NoDup_snoc_key.
Qed.

Lemma init_roles_wf db new_roles : db_wf db → db_wf (init_roles db new_roles).2.
Proof.
  intros [Hr Hm]. unfold init_roles.
  destruct (init_roles_loop (roles db) new_roles) as [table|e] eqn:Hloop;
    [|by split].
  split; [|done]. simpl. by eapply init_roles_loop_NoDup.
Qed.

Lemma save_role_message_wf db game_type channel_id message_id message_text :
  db_wf db →
  db_wf (save_role_message db game_type channel_id message_id message_text).2.
Proof.
  intros [Hr Hm]. unfold save_role_message.
  destruct (filter_key_cases RoleMessage.game_type game_type _ Hm)
    as [[-> Hnot]|(x & -> & _)]; simpl; (split; [done|]); simpl.
  - by apply NoDup_snoc_key.
  - destruct (filter_other_keys RoleMessage.game_type game_type _ Hm).
    by apply NoDup_snoc_key.
Qed.

Lemma write_occupied_by_wf db role_name o :
  db_wf db → db_wf (write_occupied_by db role_name o).
Proof.
  intros [Hr Hm]. split; [|done]. simpl.
  rewrite <- list_fmap_compose.
  erewrite list_fmap_ext; [exact Hr|].
  intros i x _. simpl. by destruct (decide _).
Qed.

Lemma update_role_message_returns db game_type bot :
  db_wf db → ∃ b edits, update_role_message db game_type bot = (Ok b, edits).
Proof.
  intros [_ Hnd]. unfold update_role_message.
  destruct (filter_key_cases RoleMessage.game_type game_type _ Hnd)
    as [[-> _]|(m & -> & _)]; simpl; [by eauto|].
  destruct (edit_message_text _ _ _ _); eauto.
Qed.

Lemma update_board_then_return_ok {A} db role bot (value : A) :
  db_wf db →
  returned (update_board_then_return db role bot value) = Ok value ∧
  stored (update_board_then_return db role bot value) = db.
Proof.
  intros Hwf. unfold update_board_then_return.
  destruct bot as [bot|]; [|done].
  by destruct (update_role_message_returns db (game_type_of role) bot Hwf)
    as (b & edits & ->).
Qed.

Lemma update_board_then_return_stored {A} db role bot (value : A) :
  stored (update_board_then_return db role bot value) = db.
Proof.
  unfold update_board_then_return. destruct bot as [bot|]; [|done].
  destruct (update_role_message _ _ _) as [[b|e] edits]; done.
Qed.

Lemma assign_role_wf db role_name user_id bot :
  db_wf db → db_wf (stored (assign_role db role_name user_id bot)).
Proof.
  intros Hwf. unfold assign_role.
  destruct (scalar_one_or_none _) as [[role|]|]; try done.
  destruct (Role.occupied_by role); [done|].
  destruct (users db !! user_id) as [user|]; [|done].
  destruct (decide _); [done|].
  rewrite update_board_then_return_stored. by apply write_occupied_by_wf.
Qed.

Lemma release_role_wf db role_name bot :
  db_wf db → db_wf (stored (release_role db role_name bot)).
Proof.
  intros Hwf. unfold release_role.
  destruct (scalar_one_or_none _) as [[role|]|]; try done.
  destruct (Role.occupied_by role); [|done].
  rewrite update_board_then_return_stored. by apply write_occupied_by_wf.
Qed.

End Invariant.

(** ** Strings *)

Module StrFacts.
Import PyStr.

Lemma lstrip_decompose s :
  ∃ pre, s = pre ++ lstrip s ∧ Forall whitespace pre.
Proof.
  induction s as [|c s (pre & Heq & Hpre)]; [by exists []|].
  simpl. destruct (is_space c) eqn:Hc.
  - exists (c :: pre). split; [by rewrite Heq at 1|]. by constructor.
  - by exists [].
Qed.

Lemma lstrip_head s c r : lstrip s = c :: r → is_space c = false.
Proof.
  induction s as [|x s IH]; [done|]. simpl.
  destruct (is_space x) eqn:Hx; [done|]. by intros [= <- _].
Qed.

Lemma lstrip_whitespace pre s : Forall whitespace pre → lstrip (pre ++ s) = lstrip s.
Proof.
  induction 1 as [|c pre Hc _ IH]; [done|]. simpl.
  unfold whitespace in Hc. by rewrite Hc.
Qed.

Lemma lstrip_nil_iff s : lstrip s = [] ↔ Forall whitespace s.
Proof.
  split.
  - intros Hs. destruct (lstrip_decompose s) as (pre & Heq & Hpre).
    rewrite Hs, app_nil_r in Heq. by subst.
  - intros Hs. rewrite <- (app_nil_r s). by rewrite lstrip_whitespace.
Qed.

Lemma lstrip_app_r s post :
  lstrip s ≠ [] → lstrip (s ++ post) = lstrip s ++ post.
Proof.
  induction s as [|c s IH]; [done|]. simpl.
  destruct (is_space c); [done|]. done.
Qed.

Lemma rstrip_whitespace s post : Forall whitespace post → rstrip (s ++ post) = rstrip s.
Proof.
  intros Hp. unfold rstrip. rewrite rev_app_distr.
  rewrite lstrip_whitespace; [done|].
  by apply List.Forall_rev.
Qed.

Lemma rstrip_decompose s :
  ∃ post, s = rstrip s ++ post ∧ Forall whitespace post.
Proof.
  unfold rstrip. destruct (lstrip_decompose (rev s)) as (pre & Heq & Hpre).
  exists (rev pre). split.
  - rewrite <- rev_app_distr, <- Heq. by rewrite rev_involutive.
  - by apply List.Forall_rev.
Qed.

Lemma strip_decompose s :
  ∃ pre post, s = pre ++ strip s ++ post ∧ Forall whitespace pre ∧ Forall whitespace post.
Proof.
  destruct (lstrip_decompose s) as (pre & Heq & Hpre).
  destruct (rstrip_decompose (lstrip s)) as (post & Heq' & Hpost).
  exists pre, post. unfold strip. by rewrite <- Heq', <- Heq.
Qed.

Lemma strip_whitespace pre s post :
  Forall whitespace pre → Forall whitespace post →
  strip (pre ++ s ++ post) = strip s.
Proof.
  intros Hpre Hpost. unfold strip. rewrite lstrip_whitespace by done.
  destruct (lstrip s) as [|c r] eqn:Hs.
  - apply lstrip_nil_iff in Hs.
    assert (lstrip (s ++ post) = []) as ->; [|done].
    apply lstrip_nil_iff. by apply Forall_app.
  - rewrite lstrip_app_r by (by rewrite Hs). rewrite Hs.
    by apply rstrip_whitespace.
Qed.

Lemma strip_nil_iff s : strip s = [] ↔ blank s.
Proof.
  unfold blank. split.
  - intros Hs. destruct (strip_decompose s) as (pre & post & Heq & Hpre & Hpost).
    rewrite Hs in Heq. rewrite Heq. by apply Forall_app.
  - intros Hs. unfold strip.
    by assert (lstrip s = []) as -> by (by apply lstrip_nil_iff).
Qed.

Lemma startswith_iff s p : startswith s p = true ↔ ∃ post, s = p ++ post.
Proof.
  revert s. induction p as [|a p IH]; intros s.
  - destruct s; (split; [intros _; eauto|done]).
  - destruct s as [|b s]; [split; [done|by intros (? & ?)]|].
    cbn [startswith]. rewrite andb_true_iff, N.eqb_eq, IH. split.
    + intros (-> & post & ->). eauto.
    + intros (post & [= -> ->]). eauto.
Qed.

Lemma contains_iff sub s : contains sub s = true ↔ ∃ pre post, s = pre ++ sub ++ post.
Proof.
  induction s as [|c s IH]; cbn [contains].
  - rewrite orb_false_r, startswith_iff. split.
    + intros (post & ->). by exists [], post.
    + intros (pre & post & Heq). symmetry in Heq.
      apply app_eq_nil in Heq as (-> & Heq). eauto.
  - rewrite orb_true_iff, startswith_iff, IH. split.
    + intros [(post & ->)|(pre & post & ->)].
      * by exists [], post.
      * by exists (c :: pre), post.
    + intros (pre & post & Heq). destruct pre as [|x pre].
      * left. eauto.
      * right. injection Heq as -> ->. eauto.
Qed.

Lemma has_marker_iff line :
  existsb (λ marker, contains marker line) markers = true ↔ has_marker line.
Proof.
  unfold has_marker. rewrite existsb_exists. split.
  - intros (m & Hm & Hc). apply contains_iff in Hc as (pre & post & ->).
    exists m, pre, post. split; [by apply list_elem_of_In|done].
  - intros (m & pre & post & Hm & ->). exists m.
    split; [by apply list_elem_of_In|]. apply contains_iff. eauto.
Qed.

Lemma replace_one_char s c : replace s [c] [] = filter (λ x, x ≠ c) s.
Proof.
  unfold replace. induction s as [|x s IH]; [done|].
  cbn [replace_from startswith length pred app].
  replace (startswith s []) with true by (by destruct s).
  destruct (N.eqb_spec c x) as [->|Hne]; cbn [andb].
  - rewrite filter_cons_False by (intros H; by apply H). exact IH.
  - rewrite filter_cons_True by done. by rewrite IH.
Qed.

Lemma filter_marks_whitespace ws :
  Forall whitespace ws → filter (λ c, c ≠ CHECKMARK ∧ c ≠ CLOCK) ws = ws.
Proof.
  induction 1 as [|c ws Hc _ IH]; [done|].
  rewrite filter_cons_True; [by rewrite IH|].
  unfold whitespace in Hc. split; intros ->; vm_compute in Hc; discriminate.
Qed.

Lemma role_name_bare line :
  strip (replace (replace (strip line) [CHECKMARK] []) [CLOCK] []) = bare_name line.
Proof.
  rewrite !replace_one_char. unfold bare_name.
  rewrite list_filter_filter.
  destruct (strip_decompose line) as (pre & post & Heq & Hpre & Hpost).
  rewrite Heq at 2. rewrite !filter_app.
  rewrite (filter_marks_whitespace pre), (filter_marks_whitespace post) by done.
  rewrite strip_whitespace by done.
  f_equal. apply list_filter_iff. tauto.
Qed.


Lemma split_nonempty sep s : split sep s ≠ [].
Proof.
  destruct s as [|c s]; [done|]. simpl.
  destruct (c =? sep)%N; [done|]. by destruct (split sep s).
Qed.

(** Splitting at line feeds and joining again gives the text back. *)
Lemma join_split s : join [LF] (split LF s) = s.
Proof.
  induction s as [|c s IH]; [done|].
  cbn [split]. destruct (N.eqb_spec c LF) as [->|Hne].
  - pose proof (split_nonempty LF s) as Hne.
    cbn [join]. destruct (split LF s) as [|h t]; [done|].
    simpl. simpl in IH. by rewrite IH.
  - destruct (split LF s) as [|h t] eqn:Hs; [by destruct (split_nonempty LF s)|].
    cbn [join] in *. destruct t; simpl in *; by rewrite IH.
Qed.

(** No line of a split text holds a line feed. *)
Lemma split_no_separator s : Forall (λ line, LF ∉ line) (split LF s).
Proof.
  induction s as [|c s IH]; [repeat constructor; apply not_elem_of_nil|].
  cbn [split]. destruct (N.eqb_spec c LF) as [->|Hne].
  - constructor; [apply not_elem_of_nil|done].
  - destruct (split LF s) as [|h t] eqn:Hs; [by destruct (split_nonempty LF s)|].
    apply Forall_cons in IH as [Hh Ht]. constructor; [|done].
    rewrite not_elem_of_cons. split; [congruence|done].
Qed.

End StrFacts.

(** ** The board loop *)

Module BoardFacts.

(** The dictionary built from a status list with distinct names holds
    exactly the pairs of the list. *)
Lemma foldl_insert_lookup (l : list (PyStr.str * option Z)) :
  ∀ (d : gmap PyStr.str (option Z)) k v,
  NoDup (l.*1) →
  foldl (λ d p, <[p.1 := p.2]> d) d l !! k = Some v
  ↔ (k, v) ∈ l ∨ ((k ∉ l.*1) ∧ d !! k = Some v).
Proof.
  induction l as [|[k' v'] l IH]; intros d k v Hnd; simpl.
  - rewrite elem_of_nil. split; [intros; right; split; [apply not_elem_of_nil|done]|].
    by intros [[]|[_ ?]].
  - simpl in Hnd. apply NoDup_cons in Hnd as [Hnot Hnd].
    rewrite IH by done. rewrite elem_of_cons, not_elem_of_cons. split.
    + intros [Hin|[Hk Hd]]; [by left; right|].
      destruct (decide (k' = k)) as [->|Hne].
      * rewrite lookup_insert_eq in Hd. injection Hd as ->. by left; left.
      * rewrite lookup_insert_ne in Hd by done. right. by split.
    + intros [[[= -> ->]|Hin]|[[Hne Hk] Hd]].
      * right. split; [done|]. by rewrite lookup_insert_eq.
      * by left.
      * right. split; [done|]. by rewrite lookup_insert_ne.
Qed.

Lemma role_status_dict_lookup snapshot k v :
  NoDup (snapshot.*1) → role_status_dict snapshot !! k = Some v ↔ (k, v) ∈ snapshot.
Proof.
  intros Hnd. unfold role_status_dict. rewrite foldl_insert_lookup by done.
  rewrite lookup_empty. split; [by intros [?|[_ ?]]|by left].
Qed.

Lemma role_status_dict_None snapshot k :
  NoDup (snapshot.*1) → role_status_dict snapshot !! k = None ↔ k ∉ (snapshot.*1).
Proof.
  intros Hnd. split.
  - intros Hnone Hin. apply list_elem_of_fmap in Hin as ([k' v] & -> & Hin).
    apply (role_status_dict_lookup _ _ _ Hnd) in Hin. simpl in Hnone. congruence.
  - intros Hnot. destruct (role_status_dict snapshot !! k) as [v|] eqn:Hd; [|done].
    apply (role_status_dict_lookup _ _ _ Hnd) in Hd.
    exfalso. apply Hnot. by apply (list_elem_of_fmap_2 fst) in Hd.
Qed.

(** The loop appends [update_line] of every line, in order. *)
Lemma update_lines_from d lines : ∀ acc,
  foldl
    (λ updated_lines line,
       if bool_decide (PyStr.strip line = [])
          || existsb (λ marker, PyStr.contains marker line) markers
       then updated_lines ++ [line]
       else
         let role_name :=
           PyStr.strip
             (PyStr.replace (PyStr.replace (PyStr.strip line) [CHECKMARK] [])
                            [CLOCK] []) in
         let updated_line :=
           match d !! role_name with
           | Some (Some _) => role_name ++ [0x20%N; CHECKMARK]
           | Some None => role_name
           | None => line
           end in
         updated_lines ++ [updated_line])
    acc lines
  = acc ++ map (update_line d) lines.
Proof.
  induction lines as [|line lines IH]; intros acc; simpl.
  - by rewrite app_nil_r.
  - rewrite IH. unfold update_line at 2.
    destruct (_ || _); by rewrite <- app_assoc.
Qed.

Lemma update_lines_map d lines : update_lines d lines = map (update_line d) lines.
Proof. unfold update_lines. by rewrite update_lines_from. Qed.

Lemma header_test line :
  bool_decide (PyStr.strip line = [])
  || existsb (λ marker, PyStr.contains marker line) markers = true
  ↔ blank line ∨ has_marker line.
Proof.
  rewrite orb_true_iff, bool_decide_eq_true.
  by rewrite StrFacts.strip_nil_iff, StrFacts.has_marker_iff.
Qed.

Lemma update_line_synced snapshot line :
  NoDup (snapshot.*1) →
  line_synced snapshot line (update_line (role_status_dict snapshot) line).
Proof.
  intros Hnd. unfold update_line.
  destruct (_ || _) eqn:Hhead.
  - apply synced_header. by apply header_test.
  - assert (¬ (blank line ∨ has_marker line)) as Hnot.
    { rewrite <- header_test. by rewrite Hhead. }
    cbv zeta. rewrite StrFacts.role_name_bare.
    destruct (role_status_dict snapshot !! bare_name line) as [[u|]|] eqn:Hd.
    + apply (synced_occupied _ _ u); [done|].
      by apply role_status_dict_lookup.
    + apply synced_free; [done|]. by apply role_status_dict_lookup.
    + apply synced_unknown; [done|]. by apply role_status_dict_None.
Qed.

End BoardFacts.

(** ** Role lookups after a write *)

Module RoleFacts.

Lemma select_role_written db role_name o :
  select_role (write_occupied_by db role_name o) role_name
  = map (λ r, Role.set_occupied_by r o) (select_role db role_name).
Proof.
  unfold select_role, write_occupied_by. simpl.
  induction (roles db) as [|x l IH]; [done|].
  simpl. rewrite !filter_cons.
  destruct (decide (Role.name x = role_name)) as [Heq|Hne]; simpl.
  - rewrite decide_True by done. by rewrite IH.
  - rewrite decide_False by done. by rewrite IH.
Qed.

(** Under unique names a role selected by name is the only row so named. *)
Lemma select_role_cases db role_name :
  db_wf db →
  select_role db role_name = [] ∧ role_name ∉ map Role.name (roles db)
  ∨ ∃ role, select_role db role_name = [role] ∧ role ∈ roles db ∧
            Role.name role = role_name ∧
            ∀ r, r ∈ roles db → Role.name r = role_name → r = role.
Proof.
  intros [Hnd _].
  destruct (filter_key_cases Role.name role_name _ Hnd)
    as [?|(role & Hsel & Hin & Hname)]; [by left|right].
  exists role. split_and!; try done.
  intros r Hr Hn.
  assert (r ∈ filter (λ y, Role.name y = role_name) (roles db)) as Hf
    by (by apply list_elem_of_filter).
  rewrite Hsel in Hf. by apply list_elem_of_singleton in Hf.
Qed.

Lemma insert_by_name_perm r rs : insert_by_name r rs ≡ₚ r :: rs.
Proof.
  induction rs as [|x rs IH]; [done|]. simpl.
  destruct (PyStr.leb _ _); [done|].
  rewrite IH. apply perm_swap.
Qed.

Lemma order_by_name_perm rs : order_by_name rs ≡ₚ rs.
Proof.
  induction rs as [|r rs IH]; [done|].
  unfold order_by_name in *. simpl. rewrite insert_by_name_perm. by rewrite IH.
Qed.

(** The status list has the names of the table, hence distinct ones. *)
Lemma get_role_status_NoDup db : db_wf db → NoDup ((get_role_status db).*1).
Proof.
  intros [Hnd _]. unfold get_role_status.
  rewrite <- list_fmap_compose.
  change (fst ∘ (λ r, (Role.name r, Role.occupied_by r))) with Role.name.
  change (map Role.name (roles db)) with (Role.name <$> roles db) in Hnd.
  by rewrite order_by_name_perm.
Qed.

End RoleFacts.

(** ** The properties of the specification *)

(** C1. Under the schema invariant, [assign_role] returns [True] exactly when
    a role of that name exists with no occupant and the user exists and is
    not banned; after [True] the role read back by name is occupied by that
    user; in every other case it returns [False], stores nothing and sends
    nothing. *)
Theorem assign_role_succeeds_iff db role_name user_id bot :
  db_wf db →
  let out := assign_role db role_name user_id bot in
  (returned out = Ok true ↔
     ∃ role user,
       role ∈ roles db ∧ Role.name role = role_name ∧
       Role.occupied_by role = None ∧
       users db !! user_id = Some user ∧ User.status user ≠ BANNED) ∧
  (returned out = Ok true →
     ∃ role, get_role_by_name (stored out) role_name = Ok (Some role) ∧
             Role.occupied_by role = Some user_id) ∧
  (returned out ≠ Ok true →
     returned out = Ok false ∧ stored out = db ∧ sent out = []).
Proof.
  intros Hwf out. subst out. unfold assign_role.
  destruct (RoleFacts.select_role_cases db role_name Hwf)
    as [[Hsel Hnot]|(role & Hsel & Hin & Hname & Huniq)]; rewrite Hsel; simpl.
  { split_and!; [|done|done]. split; [done|].
    intros (r & _ & Hr & Hn & _). exfalso. apply Hnot.
    rewrite <- Hn. by apply list_elem_of_fmap_2. }
  destruct (Role.occupied_by role) as [occ|] eqn:Hocc; simpl.
  { split_and!; [|done|done]. split; [done|].
    intros (r & _ & Hr & Hn & Ho & _). rewrite (Huniq r Hr Hn) in Ho. congruence. }
  destruct (users db !! user_id) as [user|] eqn:Huser; simpl.
  2:{ split_and!; [|done|done]. split; [done|]. by intros (_ & u & _ & _ & _ & ? & _). }
  destruct (decide (User.status user = BANNED)) as [Hban|Hok]; simpl.
  { split_and!; [|done|done]. split; [done|].
    intros (_ & u & _ & _ & _ & Hu & Hs). congruence. }
  destruct (Invariant.update_board_then_return_ok
              (write_occupied_by db role_name (Some user_id)) role bot true)
    as [Hret Hst]; [by apply Invariant.write_occupied_by_wf|].
  rewrite Hret, Hst. split_and!; [|intros _|done].
  - split; [intros _|done]. by exists role, user.
  - exists (Role.set_occupied_by role (Some user_id)). split; [|done].
    unfold get_role_by_name. rewrite RoleFacts.select_role_written.
    by rewrite Hsel.
Qed.

(** C4. Under the schema invariant, [release_role] on a name that no role
    bears, or whose role has no occupant, returns [False] (it does not
    raise), leaves the stored state as it was and sends no edit. *)
Theorem release_role_noop db role_name bot :
  db_wf db →
  (role_name ∉ map Role.name (roles db)
   ∨ ∃ role, role ∈ roles db ∧ Role.name role = role_name ∧
             Role.occupied_by role = None) →
  release_role db role_name bot = mk_outcome (Ok false) db [].
Proof.
  intros Hwf Hcase. unfold release_role.
  destruct (RoleFacts.select_role_cases db role_name Hwf)
    as [[Hsel Hnot]|(role & Hsel & Hin & Hname & Huniq)]; rewrite Hsel; simpl;
    [done|].
  destruct Hcase as [Hnone|(r & Hr & Hn & Ho)].
  - exfalso. apply Hnone. rewrite <- Hname. by apply list_elem_of_fmap_2.
  - rewrite (Huniq r Hr Hn) in Ho. by rewrite Ho.
Qed.

(** X26. For every valid reading [now] of the UTC clock,
    [get_message_stats] returns four counts with [0 <= day], [day <= week]
    and [day <= month]; once [now] is not before the first Monday after the
    epoch, also [week <= total] and [month <= total]. *)
Theorem message_stats_ordering db user_id now :
  PyDatetime.valid now → PyDatetime.tzinfo now = PyDatetime.utc →
  ∃ day week month total,
    get_message_stats db user_id now = Ok (day, week, month, total) ∧
    0 <= day ∧ day <= week ∧ day <= month ∧
    (PyDatetime.ge now first_monday = true → week <= total ∧ month <= total).
Proof.
  intros Hv Htz.
  destruct (StatsFacts.start_of_week_ok now Hv) as (ws & Hws & Hwsm).
  pose proof (CalendarFacts.toordinal_bounds now Hv) as Hn.
  pose proof (StatsFacts.weekday_range now) as Hw.
  unfold get_message_stats. rewrite Hws.
  eexists _, _, _, _. split; [reflexivity|].
  assert (Hday : PyDatetime.utc_micros (_start_of_day now)
                 = PyDatetime.toordinal now * 86400 * 1000000
                   - default 0 (PyDatetime.tzinfo now))
    by apply StatsFacts.utc_micros_midnight.
  assert (Hmonth : PyDatetime.utc_micros (_start_of_month now)
                 = PyDatetime.ymd2ord (PyDatetime.year now) (PyDatetime.month now) 1
                   * 86400 * 1000000 - default 0 (PyDatetime.tzinfo now)).
  { unfold PyDatetime.utc_micros, _start_of_month,
      PyDatetime.replace_first_midnight, PyDatetime.toordinal. simpl. lia. }
  destruct Hv as (Hy & Hm & Hd & Hh & Hmi & Hs & Hus & _).
  split; [unfold _count_from; lia|].
  split; [apply StatsFacts.count_from_mono; lia|].
  split.
  { apply StatsFacts.count_from_mono. rewrite Hday, Hmonth.
    unfold PyDatetime.toordinal, PyDatetime.ymd2ord. lia. }
  intros Hge. unfold PyDatetime.ge in Hge. apply Z.leb_le in Hge.
  assert (Hord : 719167 <= PyDatetime.toordinal now).
  { revert Hge. unfold PyDatetime.utc_micros, first_monday. rewrite Htz.
    change (PyDatetime.toordinal (PyDatetime.mk_datetime 1970 1 5 0 0 0 0 PyDatetime.utc))
      with 719167.
    simpl. lia. }
  assert (Hyear : 1970 <= PyDatetime.year now).
  { destruct (Z_lt_le_dec (PyDatetime.year now) 1970) as [Hlt|]; [exfalso|done].
    pose proof (CalendarFacts.day_of_year_bounds (PyDatetime.year now) _ _ Hm Hd) as Hdoy.
    pose proof (CalendarFacts.days_before_next_year (PyDatetime.year now)) as Hnext.
    pose proof (CalendarFacts.days_before_year_mono (PyDatetime.year now + 1) 1970) as Hmono.
    change (PyDatetime.days_before_year 1970) with 719162 in Hmono.
    unfold PyDatetime.toordinal, PyDatetime.ymd2ord in Hord. lia. }
  assert (Hepoch : PyDatetime.utc_micros epoch_start = 719163 * 86400 * 1000000)
    by reflexivity.
  split; apply StatsFacts.count_from_mono.
  - rewrite Hwsm, Hepoch, Htz. simpl. unfold PyDatetime.weekday.
    Z.to_euclidean_division_equations; lia.
  - rewrite Hmonth, Hepoch, Htz. simpl.
    assert (1 <= 1 <= PyDatetime.days_in_month (PyDatetime.year now) (PyDatetime.month now))
      as H1 by lia.
    pose proof (CalendarFacts.day_of_year_bounds (PyDatetime.year now) _ _ Hm H1) as Hdoy.
    pose proof (CalendarFacts.days_before_year_mono 1970 (PyDatetime.year now) Hyear) as Hmono.
    change (PyDatetime.days_before_year 1970) with 719162 in Hmono.
    unfold PyDatetime.ymd2ord. lia.
Qed.

(** C3. [add_user] on an id that already has a record returns the stored
    state as it is, whatever handle, name and admin flag it is given; so a
    second registration changes nothing of the first. *)
Theorem add_user_idempotent db user_id username full_name is_admin :
  (∀ user, users db !! user_id = Some user →
     add_user db user_id username full_name is_admin = db) ∧
  (∀ username0 full_name0 is_admin0,
     let db1 := add_user db user_id username0 full_name0 is_admin0 in
     add_user db1 user_id username full_name is_admin = db1).
Proof.
  assert (Hex : ∀ d user, users d !! user_id = Some user →
                  add_user d user_id username full_name is_admin = d).
  { intros d user Hu. unfold add_user. by rewrite Hu. }
  split; [by apply Hex|].
  intros username0 full_name0 is_admin0 db1. subst db1.
  destruct (users db !! user_id) as [user|] eqn:Hu.
  - replace (add_user db user_id username0 full_name0 is_admin0) with db;
      [by eapply Hex|].
    unfold add_user. by rewrite Hu.
  - eapply Hex. unfold add_user. rewrite Hu. simpl. apply lookup_insert_eq.
Qed.

(** C5. [unban_user] changes the stored state only for an existing user
    whose status is [BANNED]; then that user's status becomes [ACTIVE] and
    nothing else changes. An [ADMIN] stays [ADMIN] and a missing user is a
    no-op. *)
Theorem unban_user_only_banned db user_id :
  (unban_user db user_id ≠ db →
     ∃ user, users db !! user_id = Some user ∧ User.status user = BANNED) ∧
  (∀ user, users db !! user_id = Some user → User.status user = BANNED →
     let db' := unban_user db user_id in
     get_user db' user_id = Some (User.set_status user ACTIVE) ∧
     (∀ other, other ≠ user_id → get_user db' other = get_user db other) ∧
     user_messages db' = user_messages db ∧ roles db' = roles db ∧
     role_messages db' = role_messages db) ∧
  (∀ user, users db !! user_id = Some user → User.status user = ADMIN →
     unban_user db user_id = db) ∧
  (users db !! user_id = None → unban_user db user_id = db).
Proof.
  unfold unban_user, get_user. split_and!.
  - destruct (users db !! user_id) as [user|]; [|done].
    destruct (decide _); [by eauto|done].
  - intros user -> Hs. rewrite decide_True by done. simpl.
    split_and!; try done; [apply lookup_insert_eq|].
    intros other Hne. by apply lookup_insert_ne.
  - intros user -> Hs. rewrite decide_False; [done|]. by rewrite Hs.
  - by intros ->.
Qed.

(** C9. [set_admin] with [make_admin=False] on an existing user leaves that
    user [ACTIVE] whatever the status was, [BANNED] included; handle and name
    are kept. *)
Theorem set_admin_demote_sets_active db user_id user :
  users db !! user_id = Some user →
  get_user (set_admin db user_id false) user_id
  = Some (User.mk (User.id user) (User.username user) (User.full_name user) ACTIVE).
Proof.
  intros Hu. unfold set_admin, get_user. rewrite Hu. simpl.
  apply lookup_insert_eq.
Qed.

(** C10. When [add_message] meets an unknown user id it stores a user row
    with no handle and no name, and no run of later [add_user] calls for
    that id, whatever their arguments, changes that row. *)
Theorem add_message_user_stays_anonymous db user_id message_text created_at now :
  users db !! user_id = None →
  let db1 := add_message db user_id message_text created_at now in
  ∀ calls : list (option PyStr.str * option PyStr.str * bool),
    get_user (foldl (λ d c, add_user d user_id c.1.1 c.1.2 c.2) db1 calls) user_id
    = Some (User.mk user_id None None ACTIVE).
Proof.
  intros Hu db1 calls.
  assert (H1 : get_user db1 user_id = Some (User.mk user_id None None ACTIVE)).
  { subst db1. unfold add_message, get_user. simpl. rewrite Hu.
    apply lookup_insert_eq. }
  clearbody db1. revert db1 H1.
  induction calls as [|c calls IH]; intros db1 H1; [done|].
  simpl. apply IH. unfold add_user. unfold get_user in H1. by rewrite H1.
Qed.

(** C7. For a status list with distinct names, the text sent by the board
    update is the stored text rewritten line by line: the lines are those
    between line feeds, and each output line stands to its input line as
    [line_synced] says (header and blank lines kept; a known occupied name
    with a checkmark suffix; a known free name bare; anything else kept). *)
Theorem board_sync_line_by_line snapshot text :
  NoDup (snapshot.*1) →
  ∃ lines out_lines,
    text = PyStr.join [PyStr.LF] lines ∧
    Forall (λ line, PyStr.LF ∉ line) lines ∧
    updated_text snapshot text = PyStr.join [PyStr.LF] out_lines ∧
    Forall2 (line_synced snapshot) lines out_lines.
Proof.
  intros Hnd.
  exists (PyStr.split PyStr.LF text),
         (map (update_line (role_status_dict snapshot)) (PyStr.split PyStr.LF text)).
  split_and!.
  - by rewrite StrFacts.join_split.
  - apply StrFacts.split_no_separator.
  - unfold updated_text. by rewrite BoardFacts.update_lines_map.
  - induction (PyStr.split PyStr.LF text) as [|line lines IH]; simpl;
      constructor; [by apply BoardFacts.update_line_synced|done].
Qed.

(** ** The properties at the sample data *)

Ltac by_computation := vm_compute; first [reflexivity | exact I | discriminate].

Ltac sample_wf :=
  split; apply (bool_decide_unpack _); by_computation.

Ltac sample_valid :=
  unfold PyDatetime.valid; simpl;
  unfold PyDatetime.MINYEAR, PyDatetime.MAXYEAR, PyDatetime.DAY_US;
  repeat split; first [lia | by_computation].

Lemma assign_role_succeeds_iff_witness :
  db_wf Sample.db_roles ∧
  ∃ role,
    get_role_by_name (stored (assign_role Sample.db_roles Sample.albedo 42 None))
      Sample.albedo = Ok (Some role) ∧
    Role.occupied_by role = Some 42.
Proof.
  assert (Hwf : db_wf Sample.db_roles) by sample_wf.
  split; [exact Hwf|].
  destruct (assign_role_succeeds_iff Sample.db_roles Sample.albedo 42 None Hwf)
    as (_ & Hocc & _).
  apply Hocc. by_computation.
Defined.

Lemma release_role_noop_witness :
  db_wf Sample.db_roles ∧
  release_role Sample.db_roles Sample.kafka (Some Sample.bot)
  = mk_outcome (Ok false) Sample.db_roles [].
Proof.
  assert (Hwf : db_wf Sample.db_roles) by sample_wf.
  split; [exact Hwf|].
  apply (release_role_noop Sample.db_roles Sample.kafka (Some Sample.bot) Hwf).
  right. exists (Role.mk Sample.kafka HSR_STAR None).
  split_and!; [|reflexivity|reflexivity].
  assert (roles Sample.db_roles
          = [Role.mk Sample.albedo MONDSTADT None; Role.mk Sample.kafka HSR_STAR None])
    as -> by by_computation.
  apply list_elem_of_In. simpl. by right; left.
Defined.

Lemma message_stats_ordering_witness :
  PyDatetime.valid Sample.now ∧
  ∃ day week month total,
    get_message_stats Sample.db_messages 7 Sample.now
    = Ok (day, week, month, total) ∧
    0 <= day ∧ day <= week ∧ day <= month ∧
    (PyDatetime.ge Sample.now first_monday = true →
     week <= total ∧ month <= total).
Proof.
  assert (Hv : PyDatetime.valid Sample.now) by sample_valid.
  split; [exact Hv|].
  apply (message_stats_ordering Sample.db_messages 7 Sample.now Hv).
  reflexivity.
Defined.

(** C2. The chain [day <= week <= month <= total], which
    [test_message_stats_calculation] asserts, is broken by the code on the
    repository's own fixture: with the ten messages of
    [test_user_with_messages] recorded on a fresh database at the clock
    reading Thursday 2024-05-02 12:00 UTC, [get_message_stats] at that
    reading returns (3, 4, 3, 10). The week began on Monday 2024-04-29, in
    the month before, and the message of 2024-04-30 is in the week and not
    in the month. *)
Theorem message_stats_fixture_breaks_chain :
  PyDatetime.valid Fixture.now ∧
  length (user_messages Fixture.db) = 10%nat ∧
  get_message_stats Fixture.db Fixture.test_user Fixture.now = Ok (3, 4, 3, 10) ∧
  ¬ stats_chain (3, 4, 3, 10).
Proof.
  split_and!.
  - sample_valid.
  - by_computation.
  - by_computation.
  - unfold stats_chain. lia.
Qed.

(** The same with one message: on Thursday 2024-05-02 a message written on
    Tuesday 2024-04-30 lies in the current week and not in the current
    month, so the counts are (0, 1, 0, 1) and [week <= month] is false. *)
Lemma message_stats_week_exceeds_month :
  PyDatetime.valid Sample.now ∧
  get_message_stats Sample.db_messages 7 Sample.now = Ok (0, 1, 0, 1) ∧
  ¬ stats_chain (0, 1, 0, 1).
Proof.
  split_and!.
  - sample_valid.
  - by_computation.
  - unfold stats_chain. lia.
Qed.

Lemma add_user_idempotent_witness :
  add_user Sample.db_roles 42 (Some (lit "smith")) None true = Sample.db_roles.
Proof.
  destruct (add_user_idempotent Sample.db_roles 42 (Some (lit "smith")) None true)
    as [Hex _].
  apply (Hex (User.mk 42 (Some (lit "neo")) (Some (lit "Thomas Anderson")) ACTIVE)).
  by_computation.
Defined.

Lemma unban_user_only_banned_witness :
  get_user (unban_user Sample.db_roles 5) 5 = Some (User.mk 5 None None ACTIVE) ∧
  unban_user Sample.db_roles 99 = Sample.db_roles ∧
  unban_user Sample.db_roles 1000 = Sample.db_roles.
Proof.
  split_and!.
  - destruct (unban_user_only_banned Sample.db_roles 5) as (_ & Hbanned & _).
    apply (Hbanned (User.mk 5 None None BANNED)); by_computation.
  - destruct (unban_user_only_banned Sample.db_roles 99) as (_ & _ & Hadmin & _).
    apply (Hadmin (User.mk 99 None None ADMIN)); by_computation.
  - destruct (unban_user_only_banned Sample.db_roles 1000) as (_ & _ & _ & Hnone).
    apply Hnone. by_computation.
Defined.

(** C6. A message recorded with the naive timestamp [T] = 2024-04-30 12:00
    is not read back with [T] interpreted as UTC: the row a later session
    loads has the fields of [T] and no zone, which is another value than
    [T.replace(tzinfo=timezone.utc)]. A message recorded without a timestamp
    at the clock reading 2024-05-02 12:00 UTC is read back as the naive
    2024-05-02 12:00, which is not the aware reading of the clock. The
    docstrings of [UserMessage] and [BotDatabase] say the timestamps are
    tz-aware. *)
Theorem add_message_read_back_is_naive :
  PyDatetime.tzinfo Fixture.T = None ∧
  select_user_messages
    (add_message Fixture.db_user Fixture.test_user (lit "hi") (Some Fixture.T)
       Fixture.now) Fixture.test_user
  = [ UserMessage.mk Fixture.test_user (lit "hi")
        (PyDatetime.mk_datetime 2024 4 30 12 0 0 0 None) ] ∧
  PyDatetime.mk_datetime 2024 4 30 12 0 0 0 None
  ≠ PyDatetime.replace_tzinfo Fixture.T PyDatetime.utc ∧
  select_user_messages
    (add_message Fixture.db_user Fixture.test_user (lit "hi") None Fixture.now)
    Fixture.test_user
  = [ UserMessage.mk Fixture.test_user (lit "hi")
        (PyDatetime.mk_datetime 2024 5 2 12 0 0 0 None) ] ∧
  PyDatetime.mk_datetime 2024 5 2 12 0 0 0 None ≠ Fixture.now.
Proof.
  split_and!; [reflexivity|by_computation|discriminate|by_computation|discriminate].
Qed.

Lemma set_admin_demote_sets_active_witness :
  get_user Sample.db_roles 5 = Some (User.mk 5 None None BANNED) ∧
  get_user (set_admin Sample.db_roles 5 false) 5 = Some (User.mk 5 None None ACTIVE).
Proof.
  assert (Hu : users Sample.db_roles !! 5 = Some (User.mk 5 None None BANNED))
    by by_computation.
  split; [exact Hu|].
  exact (set_admin_demote_sets_active Sample.db_roles 5 _ Hu).
Defined.

Lemma add_message_user_stays_anonymous_witness :
  users empty_db !! 7 = None ∧
  get_user
    (add_user
       (add_user (add_message empty_db 7 (lit "hi") None Sample.now)
          7 (Some (lit "neo")) (Some (lit "Thomas Anderson")) true)
       7 (Some (lit "smith")) None false) 7
  = Some (User.mk 7 None None ACTIVE).
Proof.
  assert (Hu : users empty_db !! 7 = None) by by_computation.
  split; [exact Hu|].
  exact (add_message_user_stays_anonymous empty_db 7 (lit "hi") None Sample.now Hu
           [ (Some (lit "neo"), Some (lit "Thomas Anderson"), true);
             (Some (lit "smith"), None, false) ]).
Defined.

Lemma board_sync_line_by_line_witness :
  let snapshot :=
    get_role_status (stored (assign_role Sample.db_roles Sample.albedo 42 None)) in
  NoDup (snapshot.*1) ∧
  ∃ lines out_lines,
    Sample.board = PyStr.join [PyStr.LF] lines ∧
    Forall (λ line, PyStr.LF ∉ line) lines ∧
    updated_text snapshot Sample.board = PyStr.join [PyStr.LF] out_lines ∧
    Forall2 (line_synced snapshot) lines out_lines.
Proof.
  intros snapshot.
  assert (Hnd : NoDup (snapshot.*1))
    by (apply (bool_decide_unpack _); by_computation).
  split; [exact Hnd|].
  exact (board_sync_line_by_line snapshot Sample.board Hnd).
Defined.


(** ** The board update as a whole *)

(** X24. With a board stored for the game type, the update makes one edit
    call, on the stored chat and message, with the rewritten text, and
    returns what the call did; without one it returns [False] and calls
    nothing. *)
Lemma update_role_message_sends db game_type bot :
  db_wf db →
  ((game_type ∉ map RoleMessage.game_type (role_messages db)) ∧
   update_role_message db game_type bot = (Ok false, []))
  ∨ ∃ m, m ∈ role_messages db ∧ RoleMessage.game_type m = game_type ∧
      let text := updated_text (get_role_status db) (RoleMessage.message_text m) in
      let call := (RoleMessage.channel_id m, RoleMessage.message_id m, text) in
      update_role_message db game_type bot
      = (Ok (edit_message_text bot (RoleMessage.channel_id m)
               (RoleMessage.message_id m) text), [call]).
Proof.
  intros [_ Hnd]. unfold update_role_message.
  destruct (filter_key_cases RoleMessage.game_type game_type _ Hnd)
    as [[-> Hnot]|(m & -> & Hin & Hgt)]; simpl; [by left|right].
  exists m. split_and!; [done|done|]. simpl.
  by destruct (edit_message_text _ _ _ _).
Qed.

(** ** One call after another *)

(** X25. Run one after the other, an assignment to a role that has an
    occupant is refused whoever asks: it returns [False], writes nothing and
    sends nothing. *)
Lemma assign_role_occupied_refused db role_name user_id bot :
  db_wf db →
  (∃ role occupant, role ∈ roles db ∧ Role.name role = role_name ∧
                    Role.occupied_by role = Some occupant) →
  assign_role db role_name user_id bot = mk_outcome (Ok false) db [].
Proof.
  intros Hwf (r & occupant & Hr & Hn & Ho). unfold assign_role.
  destruct (RoleFacts.select_role_cases db role_name Hwf)
    as [[Hsel Hnot]|(role & Hsel & Hin & Hname & Huniq)]; rewrite Hsel; simpl.
  - exfalso. apply Hnot. rewrite <- Hn. by apply list_elem_of_fmap_2.
  - rewrite <- (Huniq r Hr Hn). by rewrite Ho.
Qed.

(** ** The scenarios of the specification *)

Module Scenarios.
Import Sample.

(** Seed Albedo; 42 takes it; 99 is refused; release; 99 takes it. *)
Example albedo_taken_released_retaken :
  let o1 := assign_role db_roles albedo 42 None in
  let o2 := assign_role (stored o1) albedo 99 None in
  let o3 := release_role (stored o2) albedo None in
  let o4 := assign_role (stored o3) albedo 99 None in
  (returned o1, returned o2, returned o3, returned o4)
  = (Ok true, Ok false, Ok true, Ok true) ∧
  get_role_by_name (stored o4) albedo
  = Ok (Some (Role.mk albedo MONDSTADT (Some 99))).
Proof. split; by_computation. Qed.

(** A message of an unknown user creates the user and counts once. *)
Example first_message_creates_user :
  get_user db_messages 7 = Some (User.mk 7 None None ACTIVE) ∧
  ∃ day week month, get_message_stats db_messages 7 now = Ok (day, week, month, 1).
Proof. split; [by_computation|]. eexists _, _, _. by_computation. Qed.

(** A banned user is refused and the role stays free. *)
Example banned_user_refused :
  let out := assign_role db_roles albedo 5 None in
  returned out = Ok false ∧ stored out = db_roles ∧
  get_role_by_name (stored out) albedo = Ok (Some (Role.mk albedo MONDSTADT None)).
Proof. split_and!; by_computation. Qed.

(** A user holding a role in each game releases both, and both boards are
    edited: the Genshin board first, then the Star Rail one. *)
Example release_both_boards :
  let db := stored (assign_role db_boards albedo 42 None) in
  let db := stored (assign_role db kafka 42 None) in
  let out := release_roles_by_user db 42 (Some bot) in
  returned out = Ok 2 ∧
  map (λ e, e.1.2) (sent out) = [123; 124] ∧
  get_roles_by_user (stored out) 42 = [].
Proof. split_and!; by_computation. Qed.

(** The board of [Sample] once Albedo is taken: the header and the blank
    line stay, Albedo loses the clock and gains the checkmark, the unknown
    line stays. *)
Example board_after_assignment :
  sent (assign_role db_board albedo 42 (Some bot))
  = [ (-100123456, 123,
       [0x421; 0x41F; 0x418; 0x421; 0x41E; 0x41A; PyStr.LF; PyStr.LF]%N
       ++ lit "Albedo " ++ [CHECKMARK; PyStr.LF] ++ lit "Zhongli") ].
Proof. by_computation. Qed.

End Scenarios.

(** * Further properties of the manager *)

(** ** Records and states rebuilt field by field *)

Module Eta.

Lemma set_roles_same db : set_roles db (roles db) = db.
Proof. by destruct db. Qed.

Lemma set_users_same db : set_users db (users db) = db.
Proof. by destruct db. Qed.

Lemma set_occupied_by_same r : Role.set_occupied_by r (Role.occupied_by r) = r.
Proof. by destruct r. Qed.

Lemma set_status_same u : User.set_status u (User.status u) = u.
Proof. by destruct u. Qed.

End Eta.

(** ** Role operations, one after another *)

Module RoleRuns.

(** The rows under other names are not written. *)
Lemma select_role_written_other db role_name o other :
  other ≠ role_name →
  select_role (write_occupied_by db role_name o) other = select_role db other.
Proof.
  intros Hne. unfold select_role, write_occupied_by. simpl.
  induction (roles db) as [|x l IH]; [done|].
  simpl. rewrite !filter_cons.
  destruct (decide (Role.name x = role_name)) as [Heq|Hneq]; simpl.
  - rewrite !decide_False by congruence. exact IH.
  - destruct (decide (Role.name x = other)); by rewrite IH.
Qed.

(** Writing back the occupant a uniquely named row already has changes
    nothing. *)
Lemma write_occupied_by_same db role :
  db_wf db → role ∈ roles db →
  write_occupied_by db (Role.name role) (Role.occupied_by role) = db.
Proof.
  intros Hwf Hin. unfold write_occupied_by.
  etrans; [|apply Eta.set_roles_same]. f_equal.
  etrans; [|apply list_fmap_id].
  apply list_fmap_ext. intros i x Hx. simpl.
  destruct (decide _) as [Heq|]; [|done].
  destruct (RoleFacts.select_role_cases db (Role.name role) Hwf)
    as [[_ Hnot]|(r0 & _ & _ & _ & Huniq)].
  - exfalso. apply Hnot. by apply list_elem_of_fmap_2.
  - assert (x ∈ roles db) as Hxin by (by eapply list_elem_of_lookup_2).
    rewrite (Huniq x Hxin Heq), <- (Huniq role Hin eq_refl).
    apply Eta.set_occupied_by_same.
Qed.

Lemma write_occupied_by_twice db role_name o1 o2 :
  write_occupied_by (write_occupied_by db role_name o1) role_name o2
  = write_occupied_by db role_name o2.
Proof.
  unfold write_occupied_by. simpl. f_equal.
  rewrite <- list_fmap_compose. apply list_fmap_ext. intros i x _. simpl.
  destruct (decide (Role.name x = role_name)) as [Heq|Hne]; simpl.
  - by rewrite decide_True.
  - by rewrite decide_False.
Qed.

(** The function [assign_role] computes when its four conditions hold. *)
Lemma assign_role_granted db role_name user_id bot role user :
  db_wf db → role ∈ roles db → Role.name role = role_name →
  Role.occupied_by role = None →
  users db !! user_id = Some user → User.status user ≠ BANNED →
  assign_role db role_name user_id bot
  = update_board_then_return
      (write_occupied_by db role_name (Some user_id)) role bot true.
Proof.
  intros Hwf Hin Hname Hocc Huser Hstatus. unfold assign_role.
  destruct (RoleFacts.select_role_cases db role_name Hwf)
    as [[_ Hnot]|(r0 & Hsel & _ & _ & Huniq)].
  - exfalso. apply Hnot. rewrite <- Hname. by apply list_elem_of_fmap_2.
  - rewrite Hsel. simpl. rewrite <- (Huniq role Hin Hname), Hocc, Huser.
    by rewrite decide_False.
Qed.

(** Conversely, a call that returned [True] met the four conditions. *)
Lemma assign_role_true_inv db role_name user_id bot :
  returned (assign_role db role_name user_id bot) = Ok true →
  ∃ role user,
    select_role db role_name = [role] ∧ Role.occupied_by role = None ∧
    users db !! user_id = Some user ∧ User.status user ≠ BANNED ∧
    stored (assign_role db role_name user_id bot)
    = write_occupied_by db role_name (Some user_id).
Proof.
  unfold assign_role.
  destruct (select_role db role_name) as [|role [|]] eqn:Hsel; simpl; try done.
  destruct (Role.occupied_by role) eqn:Hocc; [done|].
  destruct (users db !! user_id) as [user|] eqn:Hu; [|done].
  destruct (decide _) as [|Hs]; [done|]. intros _.
  exists role, user. split_and!; try done.
  apply Invariant.update_board_then_return_stored.
Qed.

Lemma release_role_granted db role_name bot role occupant :
  db_wf db → role ∈ roles db → Role.name role = role_name →
  Role.occupied_by role = Some occupant →
  release_role db role_name bot
  = update_board_then_return (write_occupied_by db role_name None) role bot true.
Proof.
  intros Hwf Hin Hname Hocc. unfold release_role.
  destruct (RoleFacts.select_role_cases db role_name Hwf)
    as [[_ Hnot]|(r0 & Hsel & _ & _ & Huniq)].
  - exfalso. apply Hnot. rewrite <- Hname. by apply list_elem_of_fmap_2.
  - rewrite Hsel. simpl. by rewrite <- (Huniq role Hin Hname), Hocc.
Qed.

End RoleRuns.

(** X1. Releasing an occupied role succeeds: the call returns [True], the
    role read back by name has no occupant and keeps its region, the rows
    under other names and the other tables are as before. *)
Theorem release_role_succeeds db role_name bot role occupant :
  db_wf db → role ∈ roles db → Role.name role = role_name →
  Role.occupied_by role = Some occupant →
  let out := release_role db role_name bot in
  returned out = Ok true ∧
  get_role_by_name (stored out) role_name
  = Ok (Some (Role.mk role_name (Role.region role) None)) ∧
  (∀ other, other ≠ role_name →
     select_role (stored out) other = select_role db other) ∧
  users (stored out) = users db ∧
  user_messages (stored out) = user_messages db ∧
  role_messages (stored out) = role_messages db.
Proof.
  intros Hwf Hin Hname Hocc out. subst out.
  rewrite (RoleRuns.release_role_granted db role_name bot role occupant) by done.
  destruct (Invariant.update_board_then_return_ok
              (write_occupied_by db role_name None) role bot true)
    as [-> ->]; [by apply Invariant.write_occupied_by_wf|].
  split_and!; try done.
  - unfold get_role_by_name. rewrite RoleFacts.select_role_written.
    destruct (RoleFacts.select_role_cases db role_name Hwf)
      as [[_ Hnot]|(r0 & Hsel & _ & _ & Huniq)].
    + exfalso. apply Hnot. rewrite <- Hname. by apply list_elem_of_fmap_2.
    + rewrite Hsel, <- (Huniq role Hin Hname). simpl.
      unfold Role.set_occupied_by. by rewrite Hname.
  - intros other Hne. by apply RoleRuns.select_role_written_other.
Qed.

(** X2. An assignment that succeeded and the release of the same role undo
    each other: the release returns [True] and the stored state is the one
    before the assignment. *)
Theorem assign_then_release_restores db role_name user_id bot1 bot2 :
  db_wf db →
  returned (assign_role db role_name user_id bot1) = Ok true →
  let out := release_role (stored (assign_role db role_name user_id bot1))
               role_name bot2 in
  returned out = Ok true ∧ stored out = db.
Proof.
  intros Hwf Htrue out. subst out.
  destruct (RoleRuns.assign_role_true_inv _ _ _ _ Htrue)
    as (role & user & Hsel & Hocc & _ & _ & ->).
  assert (Hin : role ∈ roles db ∧ Role.name role = role_name).
  { assert (role ∈ select_role db role_name) as H
      by (rewrite Hsel; apply list_elem_of_singleton; done).
    by apply list_elem_of_filter in H as [? ?]. }
  destruct Hin as [Hin Hname].
  assert (Hwf' : db_wf (write_occupied_by db role_name (Some user_id)))
    by (by apply Invariant.write_occupied_by_wf).
  rewrite (RoleRuns.release_role_granted _ role_name bot2
             (Role.set_occupied_by role (Some user_id)) user_id Hwf').
  - destruct (Invariant.update_board_then_return_ok
                (write_occupied_by (write_occupied_by db role_name (Some user_id))
                   role_name None)
                (Role.set_occupied_by role (Some user_id)) bot2 true)
      as [-> ->].
    + by apply Invariant.write_occupied_by_wf.
    + split; [done|]. rewrite RoleRuns.write_occupied_by_twice.
      rewrite <- Hname, <- Hocc. by apply RoleRuns.write_occupied_by_same.
  - assert (Role.set_occupied_by role (Some user_id)
            ∈ select_role (write_occupied_by db role_name (Some user_id)) role_name) as H.
    { rewrite RoleFacts.select_role_written, Hsel. simpl.
      by apply list_elem_of_singleton. }
    by apply list_elem_of_filter in H as [_ ?].
  - done.
  - done.
Qed.

(** ** Roles held by a user *)

Module HeldRoles.

Lemma set_roles_map_wf db (f : Role.t → Role.t) :
  (∀ r, Role.name (f r) = Role.name r) →
  db_wf db → db_wf (set_roles db (map f (roles db))).
Proof.
  intros Hf [Hr Hm]. split; [|done]. simpl.
  rewrite <- list_fmap_compose.
  erewrite list_fmap_ext; [exact Hr|].
  intros i x _. simpl. apply Hf.
Qed.

(** Membership in [get_roles_by_user]. *)
Lemma elem_of_get_roles_by_user db v name :
  name ∈ get_roles_by_user db v
  ↔ ∃ r, r ∈ roles db ∧ Role.name r = name ∧ Role.occupied_by r = Some v.
Proof.
  unfold get_roles_by_user. rewrite list_elem_of_fmap. split.
  - intros (r & -> & Hr). apply list_elem_of_filter in Hr as [? ?]. eauto.
  - intros (r & Hr & <- & Ho). exists r. split; [done|].
    by apply list_elem_of_filter.
Qed.

(** The write of [release_roles_by_user]. *)
Lemma released_rows_of user_id v (rs : list Role.t) :
  filter (λ r, Role.occupied_by r = Some v)
    (map (λ r, if decide (Role.occupied_by r = Some user_id)
               then Role.set_occupied_by r None else r) rs)
  = if decide (v = user_id) then []
    else filter (λ r, Role.occupied_by r = Some v) rs.
Proof.
  induction rs as [|x rs IH]; [by destruct (decide _)|].
  simpl. rewrite !filter_cons, IH.
  destruct (decide (Role.occupied_by x = Some user_id)) as [Hx|Hx]; simpl.
  - destruct (decide (v = user_id)) as [->|Hne]; [done|].
    rewrite decide_False; [done|]. rewrite Hx. congruence.
  - destruct (decide (v = user_id)) as [->|Hne]; [|done].
    by rewrite decide_False.
Qed.

End HeldRoles.

(** X3. [release_roles_by_user] returns the number of roles the user held;
    afterwards the user holds none and every other user holds what they
    held. When the user held none, nothing is written and no board is
    edited. *)
Theorem release_roles_by_user_releases db user_id bot :
  db_wf db →
  let out := release_roles_by_user db user_id bot in
  returned out = Ok (Z.of_nat (length (get_roles_by_user db user_id))) ∧
  get_roles_by_user (stored out) user_id = [] ∧
  (∀ v, v ≠ user_id →
     get_roles_by_user (stored out) v = get_roles_by_user db v) ∧
  (get_roles_by_user db user_id = [] → stored out = db ∧ sent out = []).
Proof.
  intros Hwf out. subst out. unfold release_roles_by_user.
  assert (Hlen : length (get_roles_by_user db user_id)
                 = length (filter (λ r, Role.occupied_by r = Some user_id) (roles db)))
    by apply length_map.
  assert (Hnil : get_roles_by_user db user_id = [] →
                 filter (λ r, Role.occupied_by r = Some user_id) (roles db) = []).
  { intros H. apply length_zero_iff_nil. rewrite <- Hlen, H. done. }
  rewrite Hlen.
  destruct (filter (λ r, Role.occupied_by r = Some user_id) (roles db))
    as [|r0 held] eqn:Hheld.
  { simpl. split_and!; try done. unfold get_roles_by_user. by rewrite Hheld. }
  set (db' := set_roles db _).
  assert (Hwf' : db_wf db').
  { apply HeldRoles.set_roles_map_wf; [|done].
    intros r. by destruct (decide _). }
  assert (Hst : ∀ o : outcome Z, stored o = db' →
            get_roles_by_user (stored o) user_id = [] ∧
            (∀ v, v ≠ user_id →
               get_roles_by_user (stored o) v = get_roles_by_user db v)).
  { intros o ->. unfold get_roles_by_user, db'. simpl. split.
    - rewrite HeldRoles.released_rows_of. by rewrite decide_True.
    - intros v Hne. rewrite HeldRoles.released_rows_of.
      by rewrite decide_False. }
  destruct bot as [bot|].
  - destruct (Invariant.update_role_message_returns db' (lit "genshin") bot Hwf')
      as (b1 & e1 & ->).
    destruct (Invariant.update_role_message_returns db' (lit "hsr") bot Hwf')
      as (b2 & e2 & ->).
    simpl. destruct (Hst (mk_outcome (Ok 0) db' []) eq_refl) as [H1 H2].
    split_and!; [done|exact H1|exact H2|by intros H%Hnil].
  - simpl. destruct (Hst (mk_outcome (Ok 0) db' []) eq_refl) as [H1 H2].
    split_and!; [done|exact H1|exact H2|by intros H%Hnil].
Qed.

(** X4. A successful assignment adds the role to those the user holds and
    changes nothing else: a user may hold several roles, and no other
    holding moves. *)
Theorem assign_role_adds_one_role db role_name user_id bot :
  db_wf db →
  returned (assign_role db role_name user_id bot) = Ok true →
  ∀ v name,
    name ∈ get_roles_by_user (stored (assign_role db role_name user_id bot)) v
    ↔ (name = role_name ∧ v = user_id)
      ∨ (name ≠ role_name ∧ name ∈ get_roles_by_user db v).
Proof.
  intros Hwf Htrue v name.
  destruct (RoleRuns.assign_role_true_inv _ _ _ _ Htrue)
    as (role & user & Hsel & Hocc & _ & _ & ->).
  assert (Hin : role ∈ roles db ∧ Role.name role = role_name).
  { assert (role ∈ select_role db role_name) as H
      by (rewrite Hsel; by apply list_elem_of_singleton).
    by apply list_elem_of_filter in H as [? ?]. }
  destruct Hin as [Hin Hname].
  rewrite !HeldRoles.elem_of_get_roles_by_user.
  unfold write_occupied_by. simpl. split.
  - intros (r & Hr & Hn & Ho).
    apply list_elem_of_fmap in Hr as (x & -> & Hx).
    destruct (decide (Role.name x = role_name)) as [Heq|Hne].
    + left. simpl in *. split; congruence.
    + right. split; [congruence|]. eauto.
  - intros [[-> ->]|[Hne (r & Hr & Hn & Ho)]].
    + exists (Role.set_occupied_by role (Some user_id)). split_and!; [|done|done].
      apply list_elem_of_fmap. exists role. by rewrite decide_True.
    + exists r. split_and!; [|done|done].
      apply list_elem_of_fmap. exists r. rewrite decide_False by congruence. done.
Qed.

(** X5. Banning a user does not release their roles: a role assigned to a
    user who is then banned stays occupied by that user, and every later
    assignment of it, to anyone, is refused without a write. *)
Theorem ban_user_keeps_roles db role_name user_id bot :
  db_wf db →
  returned (assign_role db role_name user_id bot) = Ok true →
  let db2 := ban_user (stored (assign_role db role_name user_id bot)) user_id in
  (∃ user, get_user db2 user_id = Some user ∧ User.status user = BANNED) ∧
  (∃ role, get_role_by_name db2 role_name = Ok (Some role) ∧
           Role.occupied_by role = Some user_id) ∧
  (∀ v bot', assign_role db2 role_name v bot' = mk_outcome (Ok false) db2 []).
Proof.
  intros Hwf Htrue db2. subst db2.
  destruct (RoleRuns.assign_role_true_inv _ _ _ _ Htrue)
    as (role & user & Hsel & Hocc & Hu & _ & ->).
  set (db1 := write_occupied_by db role_name (Some user_id)).
  assert (Hwf1 : db_wf db1) by (by apply Invariant.write_occupied_by_wf).
  assert (Hban : ban_user db1 user_id
                 = set_users db1 (<[user_id := User.set_status user BANNED]> (users db1))).
  { unfold ban_user. unfold db1 at 1. simpl. by rewrite Hu. }
  assert (Hsel1 : select_role (ban_user db1 user_id) role_name
                  = [Role.set_occupied_by role (Some user_id)]).
  { rewrite Hban. unfold db1, select_role. simpl.
    change (filter (λ r, Role.name r = role_name)
              (map (λ r, if decide (Role.name r = role_name)
                         then Role.set_occupied_by r (Some user_id) else r)
                 (roles db)))
      with (select_role (write_occupied_by db role_name (Some user_id)) role_name).
    by rewrite RoleFacts.select_role_written, Hsel. }
  split_and!.
  - exists (User.set_status user BANNED). split; [|done].
    rewrite Hban. unfold get_user. simpl. apply lookup_insert_eq.
  - exists (Role.set_occupied_by role (Some user_id)). split; [|done].
    unfold get_role_by_name. by rewrite Hsel1.
  - intros v bot'. unfold assign_role. by rewrite Hsel1.
Qed.

(** X6. Once a user is banned no role can be assigned to them: whatever the
    role, the call right after [ban_user] returns [False] and writes and
    sends nothing. *)
Theorem ban_then_assign_refused db role_name user_id bot :
  db_wf db →
  assign_role (ban_user db user_id) role_name user_id bot
  = mk_outcome (Ok false) (ban_user db user_id) [].
Proof.
  intros Hwf.
  assert (Hwf' : db_wf (ban_user db user_id)) by (by apply Invariant.ban_user_wf).
  unfold assign_role.
  destruct (RoleFacts.select_role_cases _ role_name Hwf')
    as [[-> _]|(role & -> & _)]; simpl; [done|].
  destruct (Role.occupied_by role); [done|].
  unfold ban_user. destruct (users db !! user_id) as [user|] eqn:Hu.
  - simpl. by rewrite lookup_insert_eq.
  - by rewrite Hu.
Qed.

(** X7. A ban followed by an unban leaves the user [ACTIVE] whatever the
    status was before: an administrator does not get the [ADMIN] status
    back. Nothing else changes. *)
Theorem unban_after_ban_is_active db user_id user :
  users db !! user_id = Some user →
  unban_user (ban_user db user_id) user_id
  = set_users db (<[user_id := User.set_status user ACTIVE]> (users db)).
Proof.
  intros Hu. unfold ban_user. rewrite Hu. unfold unban_user. simpl.
  rewrite lookup_insert_eq. simpl.
  unfold set_users. simpl. by rewrite insert_insert_eq.
Qed.

(** ** Seeding roles and posting boards *)

Module Seeding.

Lemma init_roles_loop_spec new_roles : ∀ table,
  NoDup (map Role.name table) →
  ∃ table',
    init_roles_loop table new_roles = Ok table' ∧
    table `prefix_of` table' ∧
    NoDup (map Role.name table') ∧
    (∀ name region, (name, region) ∈ new_roles → name ∈ map Role.name table') ∧
    (∀ r, r ∈ table' →
       r ∈ table ∨
       (Role.occupied_by r = None ∧ (Role.name r, Role.region r) ∈ new_roles)).
Proof.
  induction new_roles as [|[name region] rest IH]; intros table Hnd.
  - exists table. split_and!; [done|done|done| |by left].
    intros ? ? H. by apply elem_of_nil in H.
  - simpl.
    destruct (filter_key_cases Role.name name table Hnd)
      as [[-> Hnot]|(x & -> & Hx & Hname)]; simpl.
    + destruct (IH (table ++ [Role.mk name region None]))
        as (table' & Hloop & Hpre & Hnd' & Hnames & Hrows).
      { by apply NoDup_snoc_key. }
      exists table'. split_and!; [done| |done| |].
      * etrans; [|exact Hpre]. by apply prefix_app_r.
      * intros n g [[= -> ->]|Hin]%elem_of_cons; [|by eapply Hnames].
        destruct Hpre as [k ->]. rewrite !map_app. simpl.
        rewrite !elem_of_app. left. right. by apply list_elem_of_singleton.
      * intros r Hr. destruct (Hrows r Hr) as [Hin|[Ho Hin]].
        -- apply elem_of_app in Hin as [Hin|Hin]; [by left|].
           apply list_elem_of_singleton in Hin as ->. right.
           split; [done|]. simpl. by left.
        -- right. split; [done|]. by right.
    + destruct (IH table Hnd) as (table' & Hloop & Hpre & Hnd' & Hnames & Hrows).
      exists table'. split_and!; [done|done|done| |].
      * intros n g [[= -> ->]|Hin]%elem_of_cons; [|by eapply Hnames].
        destruct Hpre as [k ->]. rewrite map_app, elem_of_app. left.
        rewrite <- Hname. by apply list_elem_of_fmap_2.
      * intros r Hr. destruct (Hrows r Hr) as [Hin|[Ho Hin]]; [by left|].
        right. split; [done|]. by right.
Qed.

(** Where every name is already there, the loop adds nothing. *)
Lemma init_roles_loop_present new_roles table :
  NoDup (map Role.name table) →
  (∀ name region, (name, region) ∈ new_roles → name ∈ map Role.name table) →
  init_roles_loop table new_roles = Ok table.
Proof.
  intros Hnd. induction new_roles as [|[name region] rest IH]; intros Hall; [done|].
  simpl.
  destruct (filter_key_cases Role.name name table Hnd)
    as [[_ Hnot]|(x & -> & _)]; simpl.
  - exfalso. apply Hnot. apply (Hall name region). by left.
  - apply IH. intros n g Hin. apply (Hall n g). by right.
Qed.

End Seeding.

(** X8. Seeding roles is safe to repeat: on a state with unique role names
    [init_roles] does not raise, keeps every stored role, in order and with
    its occupant, in front of the new ones, stores every listed name once,
    adds only free roles from the list, and a second run with the same list
    changes nothing. *)
Theorem init_roles_rerun db new_roles :
  db_wf db →
  ∃ db',
    init_roles db new_roles = (Ok tt, db') ∧
    roles db `prefix_of` roles db' ∧
    NoDup (map Role.name (roles db')) ∧
    (∀ name region, (name, region) ∈ new_roles →
       name ∈ map Role.name (roles db')) ∧
    (∀ r, r ∈ roles db' →
       r ∈ roles db ∨
       (Role.occupied_by r = None ∧ (Role.name r, Role.region r) ∈ new_roles)) ∧
    init_roles db' new_roles = (Ok tt, db').
Proof.
  intros [Hnd Hm]. unfold init_roles.
  destruct (Seeding.init_roles_loop_spec new_roles (roles db) Hnd)
    as (table & Hloop & Hpre & Hnd' & Hnames & Hrows).
  rewrite Hloop. eexists. split; [reflexivity|]. simpl.
  split_and!; [done|done|done|done|].
  rewrite Seeding.init_roles_loop_present by done.
  by destruct db.
Qed.

(** X9. Posting a board replaces the one of the same game: under the
    invariant [save_role_message] does not raise, the board found for the
    game type is then exactly the new record, and the boards of the other
    game types are the ones stored before. *)
Theorem save_role_message_replaces db game_type channel_id message_id message_text :
  db_wf db →
  let out := save_role_message db game_type channel_id message_id message_text in
  out.1 = Ok tt ∧
  filter (λ m, RoleMessage.game_type m = game_type) (role_messages out.2)
  = [RoleMessage.mk game_type channel_id message_id message_text] ∧
  (∀ other, other ≠ game_type →
     filter (λ m, RoleMessage.game_type m = other) (role_messages out.2)
     = filter (λ m, RoleMessage.game_type m = other) (role_messages db)) ∧
  users out.2 = users db ∧ roles out.2 = roles db ∧
  user_messages out.2 = user_messages db.
Proof.
  intros [Hr Hm] out. subst out. unfold save_role_message.
  destruct (filter_key_cases RoleMessage.game_type game_type _ Hm)
    as [[Hsel Hnot]|(x & Hsel & _)]; rewrite Hsel; simpl.
  - split_and!; try done.
    + rewrite filter_app, Hsel. simpl. by rewrite filter_cons_True.
    + intros other Hne. rewrite filter_app. simpl.
      rewrite filter_cons_False by (simpl; congruence).
      by rewrite filter_nil, app_nil_r.
  - split_and!; try done.
    + rewrite filter_app.
      rewrite (filter_key_absent RoleMessage.game_type game_type
                 (filter (λ m, RoleMessage.game_type m ≠ game_type) (role_messages db)))
        by apply (filter_other_keys RoleMessage.game_type game_type _ Hm).
      by rewrite filter_cons_True.
    + intros other Hne. rewrite filter_app.
      rewrite filter_cons_False by (simpl; congruence).
      rewrite filter_nil, app_nil_r, list_filter_filter.
      apply list_filter_iff. intros m. split; [by intros [? _]|].
      intros Heq. split; [done|congruence].
Qed.

(** ** Running the board update on its own output *)

Module BoardStable.
Import PyStr.

Lemma strip_idem s : strip (strip s) = strip s.
Proof.
  destruct (StrFacts.strip_decompose s) as (pre & post & Heq & Hpre & Hpost).
  rewrite Heq at 2. by rewrite StrFacts.strip_whitespace.
Qed.

(** A stripped string is made of characters of the string. *)
Lemma strip_Forall (P : N → Prop) s : Forall P s → Forall P (strip s).
Proof.
  intros Hs.
  destruct (StrFacts.strip_decompose s) as (pre & post & Heq & _ & _).
  rewrite Heq in Hs. apply Forall_app in Hs as [_ Hs].
  by apply Forall_app in Hs as [Hs _].
Qed.

Lemma bare_name_marks_free line :
  Forall (λ c, c ≠ CHECKMARK ∧ c ≠ CLOCK) (bare_name line).
Proof.
  unfold bare_name. apply strip_Forall.
  apply Forall_forall. intros c Hc. by apply list_elem_of_filter in Hc as [? _].
Qed.

Lemma filter_Forall_id {A} (P : A → Prop) `{!∀ x, Decision (P x)} (l : list A) :
  Forall P l → filter P l = l.
Proof.
  induction 1 as [|x l Hx _ IH]; [done|].
  by rewrite filter_cons_True, IH.
Qed.

Lemma bare_name_idem line : bare_name (bare_name line) = bare_name line.
Proof.
  unfold bare_name at 1.
  rewrite filter_Forall_id by apply bare_name_marks_free.
  apply strip_idem.
Qed.

Lemma bare_name_checked line :
  bare_name (bare_name line ++ [0x20%N; CHECKMARK]) = bare_name line.
Proof.
  unfold bare_name at 1. rewrite filter_app.
  rewrite filter_Forall_id by apply bare_name_marks_free.
  assert (filter (λ c, c ≠ CHECKMARK ∧ c ≠ CLOCK) [0x20%N; CHECKMARK] = [0x20%N])
    as -> by reflexivity.
  rewrite <- (app_nil_l (bare_name line ++ _)).
  rewrite StrFacts.strip_whitespace; [apply strip_idem|done|].
  by repeat constructor.
Qed.

Lemma update_line_unfold d line :
  update_line d line =
  if bool_decide (strip line = []) || existsb (λ marker, contains marker line) markers
  then line
  else match d !! bare_name line with
       | Some (Some _) => bare_name line ++ [0x20%N; CHECKMARK]
       | Some None => bare_name line
       | None => line
       end.
Proof. unfold update_line. cbv zeta. by rewrite StrFacts.role_name_bare. Qed.

(** A line already rewritten is rewritten to itself. *)
Lemma update_line_idem d line : update_line d (update_line d line) = update_line d line.
Proof.
  rewrite (update_line_unfold d line).
  destruct (bool_decide (strip line = [])
            || existsb (λ marker, contains marker line) markers) eqn:Hhead.
  { rewrite update_line_unfold. by rewrite Hhead. }
  destruct (d !! bare_name line) as [[u|]|] eqn:Hd.
  - rewrite update_line_unfold, bare_name_checked, Hd.
    by destruct (bool_decide (strip (bare_name line ++ [0x20%N; CHECKMARK]) = []) || _).
  - rewrite update_line_unfold, bare_name_idem, Hd.
    by destruct (bool_decide (strip (bare_name line) = []) || _).
  - rewrite update_line_unfold. by rewrite Hhead, Hd.
Qed.

(** A rewritten line holds no line feed when the line held none. *)
Lemma update_line_no_LF d line : LF ∉ line → LF ∉ update_line d line.
Proof.
  intros Hline. rewrite update_line_unfold.
  assert (Hbare : LF ∉ bare_name line).
  { intros Hin. apply Hline.
    assert (Forall (λ c, c ≠ LF) (bare_name line)) as Hall.
    { unfold bare_name. apply strip_Forall. apply Forall_forall.
      intros c Hc ->. apply list_elem_of_filter in Hc as [_ Hc]. by apply Hline. }
    rewrite Forall_forall in Hall. by destruct (Hall LF Hin). }
  destruct (bool_decide (strip line = []) || _); [done|].
  destruct (d !! bare_name line) as [[u|]|]; [|done|done].
  rewrite elem_of_app. intros [?|Hin]; [done|].
  apply elem_of_cons in Hin as [Heq|Hin]; [done|].
  by apply list_elem_of_singleton in Hin.
Qed.

Lemma split_no_LF s : LF ∉ s → split LF s = [s].
Proof.
  induction s as [|c s IH]; [done|].
  rewrite not_elem_of_cons. intros [Hne Hs]. cbn [split].
  destruct (N.eqb_spec c LF) as [->|_]; [done|]. by rewrite IH.
Qed.

Lemma split_app_LF l s : LF ∉ l → split LF (l ++ LF :: s) = l :: split LF s.
Proof.
  induction l as [|c l IH]; [done|].
  rewrite not_elem_of_cons. intros [Hne Hl]. cbn [app split].
  destruct (N.eqb_spec c LF) as [->|_]; [done|]. by rewrite IH.
Qed.

(** Joining lines free of line feeds and splitting again gives the lines. *)
Lemma split_join lines :
  lines ≠ [] → Forall (λ line, LF ∉ line) lines →
  split LF (join [LF] lines) = lines.
Proof.
  intros Hne Hall. induction Hall as [|l lines Hl Hall IH]; [done|].
  destruct lines as [|l' lines]; [by apply split_no_LF|].
  change (join [LF] (l :: l' :: lines))
    with (l ++ LF :: join [LF] (l' :: lines)).
  rewrite split_app_LF by done. by rewrite IH.
Qed.

End BoardStable.

(** X10. The board text is stable under the update: rewriting a text that
    the update produced, against the same role status, gives the same text
    (a checkmark is not doubled, a bare name stays bare, header and unknown
    lines stay). *)
Theorem updated_text_idempotent roles_status message_text :
  updated_text roles_status (updated_text roles_status message_text)
  = updated_text roles_status message_text.
Proof.
  unfold updated_text. cbv zeta.
  rewrite !BoardFacts.update_lines_map.
  set (d := role_status_dict roles_status).
  rewrite BoardStable.split_join.
  - f_equal. rewrite <- list_fmap_compose. apply list_fmap_ext.
    intros i line _. apply BoardStable.update_line_idem.
  - pose proof (StrFacts.split_nonempty PyStr.LF message_text).
    by destruct (PyStr.split PyStr.LF message_text).
  - apply Forall_fmap. eapply Forall_impl; [apply StrFacts.split_no_separator|].
    intros line Hline. by apply BoardStable.update_line_no_LF.
Qed.

(** ** Queries *)

Module Queries.

(** The rows of [users] are the values of the map. *)
Lemma elem_of_user_rows db u :
  u ∈ user_rows db ↔ ∃ k, users db !! k = Some u.
Proof.
  unfold user_rows. rewrite list_elem_of_fmap. split.
  - intros ([k u'] & -> & Hin). exists k. by apply elem_of_map_to_list.
  - intros (k & Hk). exists (k, u). split; [done|]. by apply elem_of_map_to_list.
Qed.

(** Where keys are ids, the ids of the rows are the keys, each once. *)
Lemma user_row_ids db :
  users_keyed db → map User.id (user_rows db) = (map_to_list (users db)).*1.
Proof.
  intros Hk. unfold user_rows.
  change (map User.id ((map_to_list (users db)).*2))
    with (User.id <$> ((map_to_list (users db)).*2)).
  rewrite <- list_fmap_compose. apply list_fmap_ext.
  intros i [k u] Hi. simpl. apply Hk.
  apply elem_of_map_to_list. by eapply list_elem_of_lookup_2.
Qed.

Lemma filter_ids_NoDup db (P : User.t → Prop) `{!∀ u, Decision (P u)} :
  users_keyed db → NoDup (map User.id (filter P (user_rows db))).
Proof.
  intros Hk. eapply (sublist_NoDup _ (map User.id (user_rows db))).
  - rewrite user_row_ids by done. apply NoDup_fst_map_to_list.
  - apply (fmap_sublist User.id), sublist_filter.
Qed.

Lemma insert_by_name_length r rs :
  length (insert_by_name r rs) = S (length rs).
Proof. by rewrite RoleFacts.insert_by_name_perm. Qed.

Lemma leb_total a : ∀ b, PyStr.leb a b = true ∨ PyStr.leb b a = true.
Proof.
  induction a as [|x a IH]; intros [|y b]; simpl; auto.
  destruct (N.ltb_spec x y); simpl; [by left|].
  destruct (N.ltb_spec y x); simpl; [by right|].
  assert (x = y) as -> by lia. rewrite N.eqb_refl. simpl. apply IH.
Qed.

Lemma leb_trans a : ∀ b c,
  PyStr.leb a b = true → PyStr.leb b c = true → PyStr.leb a c = true.
Proof.
  induction a as [|x a IH]; intros [|y b] [|z c]; simpl; try done.
  rewrite !orb_true_iff, !andb_true_iff, !N.ltb_lt, !N.eqb_eq.
  intros [Hxy|[-> Hab]] [Hyz|[-> Hbc]].
  - left. lia.
  - by left.
  - by left.
  - right. split; [done|]. by eapply IH.
Qed.

Lemma insert_by_name_sorted r rs :
  Sorted by_name rs → Sorted by_name (insert_by_name r rs).
Proof.
  induction 1 as [|x rs Hs IH Hhd]; simpl.
  - by repeat constructor.
  - destruct (PyStr.leb (Role.name r) (Role.name x)) eqn:Hle.
    + constructor; [by constructor|]. by constructor.
    + constructor; [done|].
      assert (by_name x r) as Hxr.
      { destruct (leb_total (Role.name r) (Role.name x)); [congruence|done]. }
      destruct Hhd as [|y rs' Hxy]; simpl; [by constructor|].
      destruct (PyStr.leb (Role.name r) (Role.name y)); by constructor.
Qed.

Lemma order_by_name_sorted rs : StronglySorted by_name (order_by_name rs).
Proof.
  apply Sorted_StronglySorted.
  - intros a b c. apply leb_trans.
  - induction rs as [|r rs IH]; [constructor|].
    by apply insert_by_name_sorted.
Qed.

Lemma elem_of_where_region region rs r :
  r ∈ where_region region rs
  ↔ r ∈ rs ∧ ∀ g, region = Some g → Role.region r = g.
Proof.
  destruct region as [g|]; simpl.
  - rewrite list_elem_of_filter. split.
    + intros [? ?]. split; [done|]. by intros ? [= <-].
    + intros [? H]. split; [by apply H|done].
  - split; [by intros ?; split|by intros [? _]].
Qed.

Lemma insert_region_perm g gs : insert_region g gs ≡ₚ g :: gs.
Proof.
  induction gs as [|x gs IH]; [done|]. simpl.
  destruct (PyStr.leb _ _); [done|]. rewrite IH. apply perm_swap.
Qed.

Lemma region_groups_perm rs :
  region_groups rs ≡ₚ remove_dups (map Role.region rs).
Proof.
  unfold region_groups.
  induction (remove_dups (map Role.region rs)) as [|g gs IH]; [done|].
  simpl. by rewrite insert_region_perm, IH.
Qed.

Lemma length_filter_split {A} (P Q : A → Prop)
    `{!∀ x, Decision (P x)} `{!∀ x, Decision (Q x)} (l : list A) :
  (∀ x, Q x ↔ ¬ P x) →
  length l = (length (filter P l) + length (filter Q l))%nat.
Proof.
  intros HQ. induction l as [|x l IH]; [done|].
  rewrite !filter_cons. destruct (decide (P x)) as [HP|HP].
  - rewrite decide_False by (rewrite HQ; tauto). simpl. lia.
  - rewrite decide_True by (by rewrite HQ). simpl. lia.
Qed.

Lemma filter_comm {A} (P Q : A → Prop)
    `{!∀ x, Decision (P x)} `{!∀ x, Decision (Q x)} (l : list A) :
  filter P (filter Q l) = filter Q (filter P l).
Proof.
  rewrite !list_filter_filter. apply list_filter_iff. intros x. tauto.
Qed.

End Queries.

(** X11. [get_user_ids] lists, without repetition and in the requested
    order of ids, exactly the users that pass its filters: banned users are
    left out when [only_active] is set and administrators when
    [include_admins] is not. *)
Theorem get_user_ids_sorted_filtered db only_active include_admins order_asc :
  users_keyed db →
  let ids := get_user_ids db only_active include_admins order_asc in
  (∀ id, id ∈ ids ↔
     ∃ u, users db !! id = Some u ∧
          (only_active = true → User.status u ≠ BANNED) ∧
          (include_admins = false → User.status u ≠ ADMIN)) ∧
  NoDup ids ∧
  (if order_asc then StronglySorted Z.le ids else StronglySorted (flip Z.le) ids).
Proof.
  intros Hk ids. subst ids. unfold get_user_ids. cbv zeta.
  set (P := λ u : User.t,
         (only_active = true → User.status u ≠ BANNED) ∧
         (include_admins = false → User.status u ≠ ADMIN)).
  assert (Hrows : ∀ u,
    u ∈ (if include_admins
         then (if only_active
               then filter (λ u, User.status u ≠ BANNED) (user_rows db)
               else user_rows db)
         else filter (λ u, User.status u ≠ ADMIN)
                (if only_active
                 then filter (λ u, User.status u ≠ BANNED) (user_rows db)
                 else user_rows db))
    ↔ u ∈ user_rows db ∧ P u).
  { intros u. unfold P.
    destruct include_admins, only_active;
      rewrite ?list_elem_of_filter; intuition congruence. }
  assert (Hnd : NoDup (map User.id
    (if include_admins
     then (if only_active
           then filter (λ u, User.status u ≠ BANNED) (user_rows db)
           else user_rows db)
     else filter (λ u, User.status u ≠ ADMIN)
            (if only_active
             then filter (λ u, User.status u ≠ BANNED) (user_rows db)
             else user_rows db)))).
  { destruct include_admins, only_active.
    - by apply Queries.filter_ids_NoDup.
    - rewrite Queries.user_row_ids by done. apply NoDup_fst_map_to_list.
    - rewrite list_filter_filter. by apply Queries.filter_ids_NoDup.
    - by apply Queries.filter_ids_NoDup. }
  assert (Hmem : ∀ id l, id ∈ map User.id l → (∀ u, u ∈ l ↔ u ∈ user_rows db ∧ P u) →
            ∃ u, users db !! id = Some u ∧ P u).
  { intros id l Hin Hl. apply list_elem_of_fmap in Hin as (u & -> & Hu).
    apply Hl in Hu as [Hu HP]. apply Queries.elem_of_user_rows in Hu as (k & Hku).
    exists u. split; [|done]. by rewrite (Hk k u Hku). }
  assert (Hmem' : ∀ id l u, users db !! id = Some u → P u →
            (∀ u, u ∈ l ↔ u ∈ user_rows db ∧ P u) → id ∈ map User.id l).
  { intros id l u Hu HP Hl. rewrite <- (Hk id u Hu).
    apply list_elem_of_fmap_2, Hl. split; [|done].
    apply Queries.elem_of_user_rows. eauto. }
  assert (Htot : Total (flip Z.le)) by (intros x y; unfold flip; lia).
  destruct order_asc.
  - split_and!.
    + intros id. rewrite merge_sort_Permutation. split.
      * intros Hin. by eapply Hmem.
      * intros (u & Hu & HP). by eapply Hmem'.
    + by rewrite merge_sort_Permutation.
    + apply StronglySorted_merge_sort; apply _.
  - split_and!.
    + intros id. rewrite merge_sort_Permutation. split.
      * intros Hin. by eapply Hmem.
      * intros (u & Hu & HP). by eapply Hmem'.
    + by rewrite merge_sort_Permutation.
    + apply StronglySorted_merge_sort; [|done].
      intros x y z. unfold flip. lia.
Qed.

(** X12. [get_all_users] returns every stored user once, less the banned
    ones unless [include_banned] is set. *)
Theorem get_all_users_lists_users db include_banned :
  users_keyed db →
  (∀ u, u ∈ get_all_users db include_banned ↔
     users db !! User.id u = Some u ∧
     (include_banned = false → User.status u ≠ BANNED)) ∧
  NoDup (get_all_users db include_banned).
Proof.
  intros Hk.
  assert (Hrow : ∀ u, u ∈ user_rows db ↔ users db !! User.id u = Some u).
  { intros u. rewrite Queries.elem_of_user_rows. split; [|by eauto].
    intros (k & Hku). by rewrite (Hk k u Hku). }
  assert (Hnd : NoDup (user_rows db)).
  { eapply NoDup_fmap_1. rewrite Queries.user_row_ids by done.
    apply NoDup_fst_map_to_list. }
  unfold get_all_users. destruct include_banned.
  - split; [|done]. intros u. rewrite Hrow. intuition congruence.
  - split; [|by apply NoDup_filter].
    intros u. rewrite list_elem_of_filter, Hrow. intuition congruence.
Qed.

(** X13. The free and the occupied roles split the roles of the region (of
    all regions when none is given): a role is listed as available exactly
    when it is stored, matches the region and has no occupant, as occupied
    exactly when it has one, the two lists together hold each such role
    once, and both come in ascending order of names. *)
Theorem available_and_occupied_split db region :
  (∀ r, r ∈ get_available_roles db region ↔
     r ∈ roles db ∧ Role.occupied_by r = None ∧
     ∀ g, region = Some g → Role.region r = g) ∧
  (∀ r, r ∈ get_occupied_roles db region ↔
     r ∈ roles db ∧ Role.occupied_by r ≠ None ∧
     ∀ g, region = Some g → Role.region r = g) ∧
  get_available_roles db region ++ get_occupied_roles db region
  ≡ₚ where_region region (roles db) ∧
  StronglySorted by_name (get_available_roles db region) ∧
  StronglySorted by_name (get_occupied_roles db region).
Proof.
  unfold get_available_roles, get_occupied_roles. split_and!.
  - intros r. rewrite RoleFacts.order_by_name_perm, Queries.elem_of_where_region.
    rewrite list_elem_of_filter. tauto.
  - intros r. rewrite RoleFacts.order_by_name_perm, Queries.elem_of_where_region.
    rewrite list_elem_of_filter. tauto.
  - rewrite !RoleFacts.order_by_name_perm.
    destruct region as [g|]; simpl.
    + rewrite (Queries.filter_comm (λ r, Role.region r = g)
                 (λ r, Role.occupied_by r = None)).
      rewrite (Queries.filter_comm (λ r, Role.region r = g)
                 (λ r, Role.occupied_by r ≠ None)).
      apply (filter_app_complement (λ r, Role.occupied_by r = None)).
    + apply (filter_app_complement (λ r, Role.occupied_by r = None)).
  - apply Queries.order_by_name_sorted.
  - apply Queries.order_by_name_sorted.
Qed.

(** X14. The role status is the list of (name, occupant) of all stored
    roles, one entry per role, in ascending order of names. *)
Theorem get_role_status_sorted db :
  get_role_status db ≡ₚ map (λ r, (Role.name r, Role.occupied_by r)) (roles db) ∧
  StronglySorted (λ a b, PyStr.leb a.1 b.1 = true) (get_role_status db).
Proof.
  unfold get_role_status. split.
  - change (map ?f ?l) with (f <$> l). by rewrite RoleFacts.order_by_name_perm.
  - apply (StronglySorted_fmap _ by_name); [done|].
    apply Queries.order_by_name_sorted.
Qed.

(** X15. The region statistics agree with the role queries: there is one
    entry per region that has a role and none for the others, and in each
    entry the total is the number of roles of the region, the occupied and
    free counts are the lengths of the occupied and available lists of the
    region, the total is their sum and is at least one. *)
Theorem region_stats_consistent db :
  NoDup (get_region_stats db).*1 ∧
  (∀ g, g ∈ (get_region_stats db).*1 ↔ ∃ r, r ∈ roles db ∧ Role.region r = g) ∧
  (∀ g total occupied free,
     (g, (total, occupied, free)) ∈ get_region_stats db →
     total = Z.of_nat (length (get_roles_by_region db g)) ∧
     occupied = Z.of_nat (length (get_occupied_roles db (Some g))) ∧
     free = Z.of_nat (length (get_available_roles db (Some g))) ∧
     total = occupied + free ∧ 1 <= total).
Proof.
  assert (Hkeys : (get_region_stats db).*1 = region_groups (roles db)).
  { unfold get_region_stats.
    change (map ?f ?l) with (f <$> l). rewrite <- list_fmap_compose.
    etrans; [|apply list_fmap_id]. by apply list_fmap_ext. }
  assert (Hgroup : ∀ g, g ∈ region_groups (roles db)
                        ↔ ∃ r, r ∈ roles db ∧ Role.region r = g).
  { intros g. rewrite Queries.region_groups_perm, elem_of_remove_dups.
    rewrite list_elem_of_fmap. split; intros (r & ? & ?); eauto. }
  split_and!.
  - rewrite Hkeys, Queries.region_groups_perm. apply NoDup_remove_dups.
  - intros g. by rewrite Hkeys.
  - intros g total occupied free Hin.
    assert (Hg : g ∈ region_groups (roles db)).
    { rewrite <- Hkeys. by apply (list_elem_of_fmap_2 fst) in Hin. }
    apply Hgroup in Hg as (r0 & Hr0 & Hreg).
    unfold get_region_stats in Hin.
    apply list_elem_of_fmap in Hin as (g' & [= -> -> -> ->] & _).
    unfold get_roles_by_region, get_occupied_roles, get_available_roles.
    rewrite !RoleFacts.order_by_name_perm. simpl.
    rewrite (Queries.filter_comm (λ r, Role.region r = g')
               (λ r, Role.occupied_by r ≠ None)).
    rewrite (Queries.filter_comm (λ r, Role.region r = g')
               (λ r, Role.occupied_by r = None)).
    split_and!; try done.
    + rewrite (Queries.length_filter_split (λ r, Role.occupied_by r ≠ None)
                 (λ r, Role.occupied_by r = None)
                 (filter (λ r, Role.region r = g') (roles db))).
      * lia.
      * intros r. destruct (decide (Role.occupied_by r = None)); tauto.
    + assert (r0 ∈ filter (λ r, Role.region r = g') (roles db)) as Hne
        by (by apply list_elem_of_filter).
      destruct (filter (λ r, Role.region r = g') (roles db)); [|simpl; lia].
      by apply elem_of_nil in Hne.
Qed.

(** ** Messages and their counts *)

Module Counting.

(** What one more message adds to a count. *)
Lemma count_from_add_message db user_id message_text created_at now v since :
  let db' := add_message db user_id message_text created_at now in
  ∃ ts, user_messages db' = user_messages db ++ [UserMessage.mk user_id message_text ts] ∧
        (created_at = None → ts = now) ∧
        _count_from db' v since
        = _count_from db v since
          + (if decide (user_id = v ∧ PyDatetime.ge ts since = true) then 1 else 0).
Proof.
  intros db'. subst db'. unfold add_message. cbv zeta. eexists.
  split; [reflexivity|]. split.
  { by intros ->. }
  unfold _count_from. simpl. rewrite filter_app, length_app, filter_cons.
  simpl. destruct (decide _); simpl; lia.
Qed.

Lemma ge_start_of_day now :
  PyDatetime.valid now → PyDatetime.ge now (_start_of_day now) = true.
Proof.
  intros (_ & _ & _ & Hh & Hm & Hs & Hus & _).
  unfold PyDatetime.ge. apply Z.leb_le.
  rewrite StatsFacts.utc_micros_midnight.
  unfold PyDatetime.utc_micros. lia.
Qed.

Lemma ge_start_of_month now :
  PyDatetime.valid now → PyDatetime.ge now (_start_of_month now) = true.
Proof.
  intros (_ & _ & Hd & Hh & Hm & Hs & Hus & _).
  unfold PyDatetime.ge. apply Z.leb_le.
  unfold PyDatetime.utc_micros, _start_of_month,
    PyDatetime.replace_first_midnight, PyDatetime.toordinal, PyDatetime.ymd2ord.
  simpl. lia.
Qed.

Lemma ge_start_of_week now week_start :
  PyDatetime.valid now → _start_of_week_monday now = Ok week_start →
  PyDatetime.ge now week_start = true.
Proof.
  intros Hv Hws.
  destruct (StatsFacts.start_of_week_ok now Hv) as (ws & Hws' & Hmicros).
  rewrite Hws in Hws'. injection Hws' as <-.
  pose proof (StatsFacts.weekday_range now) as Hw.
  destruct Hv as (_ & _ & _ & Hh & Hm & Hs & Hus & _).
  unfold PyDatetime.ge. apply Z.leb_le. rewrite Hmicros.
  unfold PyDatetime.utc_micros. lia.
Qed.

End Counting.

(** X16. A message counts only for its author: recording a message of one
    user, whatever its text and timestamp, leaves the statistics of every
    other user as they were. *)
Theorem add_message_counts_for_author_only
    db user_id message_text created_at now' v now :
  v ≠ user_id →
  get_message_stats (add_message db user_id message_text created_at now') v now
  = get_message_stats db v now.
Proof.
  intros Hne. unfold get_message_stats.
  destruct (_start_of_week_monday now) as [week_start|e]; [|done].
  assert (Hc : ∀ since,
    _count_from (add_message db user_id message_text created_at now') v since
    = _count_from db v since).
  { intros since.
    destruct (Counting.count_from_add_message db user_id message_text created_at
                now' v since) as (ts & _ & _ & ->).
    rewrite decide_False; [lia|]. intros [? _]. congruence. }
  by rewrite !Hc.
Qed.

(** X17. A message recorded without a timestamp at the instant the
    statistics are read is in all four windows: each of the four counts of
    its author goes up by one. *)
Theorem message_recorded_now_counts_everywhere
    db user_id message_text now day week month total :
  PyDatetime.valid now → PyDatetime.ge now epoch_start = true →
  get_message_stats db user_id now = Ok (day, week, month, total) →
  get_message_stats (add_message db user_id message_text None now) user_id now
  = Ok (day + 1, week + 1, month + 1, total + 1).
Proof.
  intros Hv Hepoch. unfold get_message_stats.
  destruct (_start_of_week_monday now) as [week_start|e] eqn:Hws; [|done].
  intros [= <- <- <- <-].
  assert (Hc : ∀ since, PyDatetime.ge now since = true →
    _count_from (add_message db user_id message_text None now) user_id since
    = _count_from db user_id since + 1).
  { intros since Hge.
    destruct (Counting.count_from_add_message db user_id message_text None
                now user_id since) as (ts & _ & Hts & ->).
    rewrite (Hts eq_refl). by rewrite decide_True. }
  rewrite !Hc; [done|done| | |].
  - by apply Counting.ge_start_of_month.
  - by eapply Counting.ge_start_of_week.
  - by apply Counting.ge_start_of_day.
Qed.

(** X18. A user without messages, registered or not, has the statistics
    (0, 0, 0, 0) at every valid reading of the clock. *)
Theorem stats_without_messages db user_id now :
  PyDatetime.valid now → select_user_messages db user_id = [] →
  get_message_stats db user_id now = Ok (0, 0, 0, 0).
Proof.
  intros Hv Hnone.
  destruct (StatsFacts.start_of_week_ok now Hv) as (ws & Hws & _).
  unfold get_message_stats. rewrite Hws.
  assert (Hc : ∀ since, _count_from db user_id since = 0).
  { intros since. unfold _count_from.
    assert (length (filter
              (λ m, UserMessage.user_id m = user_id
                    ∧ PyDatetime.ge (UserMessage.created_at m) since = true)
              (user_messages db))
            ≤ length (select_user_messages db user_id))%nat as Hle.
    { unfold select_user_messages. rewrite length_map.
      apply StatsFacts.length_filter_impl. tauto. }
    rewrite Hnone in Hle. simpl in Hle. lia. }
  by rewrite !Hc.
Qed.

(** X19. The message counter leaves the stored state alone for everything
    that is not a message, for messages outside groups and supergroups, and
    for messages of bots. *)
Theorem message_counter_ignores db e now :
  (e = OtherEvent
   ∨ ∃ message, e = MessageEvent message ∧
       ((Message.chat_type message ≠ GROUP ∧ Message.chat_type message ≠ SUPERGROUP)
        ∨ Message.from_user_is_bot message = true)) →
  message_counter db e now = db.
Proof.
  intros [->|(message & -> & Hcase)]; [done|]. simpl.
  destruct Hcase as [[Hg Hs]|Hbot].
  - by destruct (Message.chat_type message).
  - rewrite Hbot. by destruct (Message.chat_type message).
Qed.

(** X20. For a message of a person in a group or supergroup the counter
    registers the author when unknown, with the handle and name of the
    message and status [ACTIVE], keeps the record of a known author as it is,
    and appends one message for the author: its text is the text of the
    message, else its caption, else the empty string, and its timestamp is
    the date of the message, read as UTC when naive. Roles and boards are
    not touched. *)
Theorem message_counter_records db message now :
  Message.chat_type message = GROUP ∨ Message.chat_type message = SUPERGROUP →
  Message.from_user_is_bot message = false →
  let db' := message_counter db (MessageEvent message) now in
  let user_id := Message.from_user_id message in
  get_user db' user_id
  = Some (default (User.mk user_id (Message.from_user_username message)
                     (Some (Message.from_user_full_name message)) ACTIVE)
                  (users db !! user_id)) ∧
  (∀ other, other ≠ user_id → get_user db' other = get_user db other) ∧
  user_messages db'
  = user_messages db
    ++ [UserMessage.mk user_id
          (match Message.text message, Message.caption message with
           | Some (c :: t), _ => c :: t
           | _, Some (c :: t) => c :: t
           | _, _ => []
           end)
          (match PyDatetime.tzinfo (Message.date message) with
           | None => PyDatetime.replace_tzinfo (Message.date message) PyDatetime.utc
           | Some _ => Message.date message
           end)] ∧
  roles db' = roles db ∧ role_messages db' = role_messages db.
Proof.
  intros Hchat Hbot db' user_id. subst db' user_id.
  assert (message_counter db (MessageEvent message) now
          = process_group_message db message now) as ->.
  { simpl. rewrite Hbot. by destruct Hchat as [-> | ->]. }
  unfold process_group_message, add_message, add_user, get_user. simpl.
  assert (Htext : message_text_of message
                  = match Message.text message, Message.caption message with
                    | Some (c :: t), _ => c :: t
                    | _, Some (c :: t) => c :: t
                    | _, _ => []
                    end).
  { unfold message_text_of, str_or.
    destruct (Message.text message) as [[|? ?]|], (Message.caption message) as [[|? ?]|];
      reflexivity. }
  rewrite Htext.
  destruct (users db !! Message.from_user_id message) as [u|] eqn:Hu; simpl.
  - rewrite Hu. simpl. by rewrite Hu.
  - rewrite lookup_insert_eq. simpl. rewrite lookup_insert_eq.
    split_and!; try done.
    intros other Hne. by rewrite lookup_insert_ne.
Qed.

(** ** States built by the manager *)

Module Runs.

Lemma users_step_keyed db user_id u :
  users_keyed db → User.id u = user_id →
  users_keyed (set_users db (<[user_id := u]> (users db))).
Proof.
  intros Hk Hid k x. simpl. destruct (decide (user_id = k)) as [->|Hne].
  - rewrite lookup_insert_eq. by intros [= <-].
  - rewrite lookup_insert_ne by done. apply Hk.
Qed.

Lemma users_step_references db user_id u :
  references_kept db →
  references_kept (set_users db (<[user_id := u]> (users db))).
Proof.
  intros [Hm Hr]. split; simpl.
  - intros m Hin. rewrite lookup_insert_is_Some'. right. by apply Hm.
  - intros r v Hin Ho. rewrite lookup_insert_is_Some'. right. by eapply Hr.
Qed.

Lemma users_step_grows db user_id u :
  grows db (set_users db (<[user_id := u]> (users db))).
Proof.
  split_and!; simpl; [|done|done].
  intros v Hv. rewrite lookup_insert_is_Some'. by right.
Qed.

Lemma grows_refl db : grows db db.
Proof. done. Qed.

Lemma add_user_step db user_id username full_name is_admin :
  invariants db →
  invariants (add_user db user_id username full_name is_admin) ∧
  grows db (add_user db user_id username full_name is_admin).
Proof.
  intros (Hwf & Hk & Hr). unfold add_user.
  destruct (users db !! user_id); [done|].
  split; [|apply users_step_grows].
  split_and!; [done|by apply users_step_keyed|by apply users_step_references].
Qed.

Lemma set_status_step db user_id user s :
  users db !! user_id = Some user → invariants db →
  invariants (set_users db (<[user_id := User.set_status user s]> (users db))) ∧
  grows db (set_users db (<[user_id := User.set_status user s]> (users db))).
Proof.
  intros Hu (Hwf & Hk & Hr). split; [|apply users_step_grows].
  split_and!; [done| |by apply users_step_references].
  apply users_step_keyed; [done|]. simpl. by apply Hk.
Qed.

Lemma add_message_step db user_id message_text created_at now :
  invariants db →
  invariants (add_message db user_id message_text created_at now) ∧
  grows db (add_message db user_id message_text created_at now).
Proof.
  intros (Hwf & Hk & [Hm Hr]). unfold add_message. cbv zeta.
  set (users' := match users db !! user_id with
                 | Some _ => users db
                 | None => <[user_id := User.mk user_id None None ACTIVE]> (users db)
                 end).
  assert (Hsub : ∀ v, is_Some (users db !! v) → is_Some (users' !! v)).
  { intros v Hv. unfold users'. destruct (users db !! user_id); [done|].
    rewrite lookup_insert_is_Some'. by right. }
  assert (Hnew : is_Some (users' !! user_id)).
  { unfold users'. destruct (users db !! user_id) eqn:Hu; [by rewrite Hu|].
    by rewrite lookup_insert_eq. }
  split; [split_and!|split_and!]; simpl; try done.
  - intros k x. simpl. unfold users'.
    destruct (users db !! user_id) eqn:Hu; [apply Hk|].
    destruct (decide (user_id = k)) as [->|Hne].
    + rewrite lookup_insert_eq. by intros [= <-].
    + rewrite lookup_insert_ne by done. apply Hk.
  - split; simpl.
    + intros m [Hin|Hin]%elem_of_app; [by apply Hsub, Hm|].
      apply list_elem_of_singleton in Hin as ->. done.
    + intros r v Hin Ho. apply Hsub. by eapply Hr.
  - by apply prefix_app_r.
Qed.

Lemma roles_step db (rs : list Role.t) :
  NoDup (map Role.name rs) →
  (∀ r u, r ∈ rs → Role.occupied_by r = Some u → is_Some (users db !! u)) →
  (∀ name, name ∈ map Role.name (roles db) → name ∈ map Role.name rs) →
  invariants db → invariants (set_roles db rs) ∧ grows db (set_roles db rs).
Proof.
  intros Hnd Hocc Hnames ((_ & Hm) & Hk & [Hmsg _]).
  split; [split_and!|split_and!]; done.
Qed.

Lemma write_occupied_by_step db role_name o :
  (∀ u, o = Some u → is_Some (users db !! u)) →
  invariants db →
  invariants (write_occupied_by db role_name o) ∧
  grows db (write_occupied_by db role_name o).
Proof.
  intros Ho Hinv. unfold write_occupied_by.
  destruct Hinv as (Hwf & Hk & Hrefs).
  assert (Hnames : map Role.name
            (map (λ r, if decide (Role.name r = role_name)
                       then Role.set_occupied_by r o else r) (roles db))
          = map Role.name (roles db)).
  { change (map ?f ?l) with (f <$> l). rewrite <- list_fmap_compose.
    apply list_fmap_ext. intros i x _. simpl. by destruct (decide _). }
  apply roles_step; [| | |done].
  - rewrite Hnames. apply Hwf.
  - intros r u Hin Hou. apply list_elem_of_fmap in Hin as (x & -> & Hx).
    destruct (decide _); simpl in Hou.
    + apply Ho. done.
    + destruct Hrefs as [_ Hr]. by eapply Hr.
  - intros name. by rewrite Hnames.
Qed.

Lemma assign_role_step db role_name user_id bot :
  invariants db →
  invariants (stored (assign_role db role_name user_id bot)) ∧
  grows db (stored (assign_role db role_name user_id bot)).
Proof.
  intros Hinv. unfold assign_role.
  destruct (scalar_one_or_none _) as [[role|]|]; try done.
  destruct (Role.occupied_by role); [done|].
  destruct (users db !! user_id) as [user|] eqn:Hu; [|done].
  destruct (decide _); [done|].
  rewrite Invariant.update_board_then_return_stored.
  apply write_occupied_by_step; [|done]. intros u [= <-]. by rewrite Hu.
Qed.

Lemma release_role_step db role_name bot :
  invariants db →
  invariants (stored (release_role db role_name bot)) ∧
  grows db (stored (release_role db role_name bot)).
Proof.
  intros Hinv. unfold release_role.
  destruct (scalar_one_or_none _) as [[role|]|]; try done.
  destruct (Role.occupied_by role); [|done].
  rewrite Invariant.update_board_then_return_stored.
  by apply write_occupied_by_step.
Qed.

Lemma release_roles_by_user_stored db user_id bot :
  stored (release_roles_by_user db user_id bot) = db
  ∨ stored (release_roles_by_user db user_id bot)
    = set_roles db
        (map (λ r, if decide (Role.occupied_by r = Some user_id)
                   then Role.set_occupied_by r None else r) (roles db)).
Proof.
  unfold release_roles_by_user.
  destruct (filter _ (roles db)); [by left|right].
  destruct bot as [bot|]; [|done].
  destruct (update_role_message _ (lit "genshin") bot) as [[b1|e1] edits1]; [|done].
  by destruct (update_role_message _ (lit "hsr") bot) as [[b2|e2] edits2].
Qed.

Lemma release_roles_by_user_step db user_id bot :
  invariants db →
  invariants (stored (release_roles_by_user db user_id bot)) ∧
  grows db (stored (release_roles_by_user db user_id bot)).
Proof.
  intros Hinv.
  destruct (release_roles_by_user_stored db user_id bot) as [->| ->]; [done|].
  destruct Hinv as (Hwf & Hk & Hrefs).
  assert (Hnames : map Role.name
            (map (λ r, if decide (Role.occupied_by r = Some user_id)
                       then Role.set_occupied_by r None else r) (roles db))
          = map Role.name (roles db)).
  { change (map ?f ?l) with (f <$> l). rewrite <- list_fmap_compose.
    apply list_fmap_ext. intros i x _. simpl. by destruct (decide _). }
  apply roles_step; [| | |done].
  - rewrite Hnames. apply Hwf.
  - intros r u Hin Hou. apply list_elem_of_fmap in Hin as (x & -> & Hx).
    destruct (decide _); simpl in Hou; [done|].
    destruct Hrefs as [_ Hr]. by eapply Hr.
  - intros name. by rewrite Hnames.
Qed.

Lemma init_roles_step db new_roles :
  invariants db →
  invariants (init_roles db new_roles).2 ∧ grows db (init_roles db new_roles).2.
Proof.
  intros Hinv. pose proof Hinv as (Hwf & Hk & Hrefs).
  unfold init_roles.
  destruct (Seeding.init_roles_loop_spec new_roles (roles db) (proj1 Hwf))
    as (table & -> & Hpre & Hnd & _ & Hrows). simpl.
  apply roles_step; [done| | |done].
  - intros r u Hin Ho. destruct (Hrows r Hin) as [Hold|[Hnone _]]; [|congruence].
    destruct Hrefs as [_ Hr]. by eapply Hr.
  - intros name Hin. destruct Hpre as [k ->]. rewrite map_app, elem_of_app. by left.
Qed.

Lemma save_role_message_step db game_type channel_id message_id message_text :
  invariants db →
  invariants (save_role_message db game_type channel_id message_id message_text).2 ∧
  grows db (save_role_message db game_type channel_id message_id message_text).2.
Proof.
  intros (Hwf & Hk & Hrefs).
  pose proof (Invariant.save_role_message_wf db game_type channel_id message_id
                message_text Hwf) as Hwf'.
  unfold save_role_message in *.
  destruct (scalar_one_or_none _) as [existing|e]; [|done].
  simpl in *. done.
Qed.

Lemma message_counter_step db e now :
  invariants db →
  invariants (message_counter db e now) ∧ grows db (message_counter db e now).
Proof.
  intros Hinv. destruct e as [message|]; [|done]. simpl.
  assert (Hp : invariants (process_group_message db message now) ∧
               grows db (process_group_message db message now)).
  { unfold process_group_message.
    destruct (add_user_step db (Message.from_user_id message)
                (Message.from_user_username message)
                (Some (Message.from_user_full_name message)) false Hinv)
      as [Hinv1 (Hu1 & Hn1 & Hm1)].
    destruct (add_message_step _ (Message.from_user_id message)
                (message_text_of message) (Some (Message.date message)) now Hinv1)
      as [Hinv2 (Hu2 & Hn2 & Hm2)].
    split; [done|]. split_and!; [by eauto|by eauto|by etrans]. }
  destruct (Message.chat_type message); try done;
    by destruct (Message.from_user_is_bot message).
Qed.

(** One call keeps the invariants and removes nothing. *)
Lemma run_call_step db c :
  invariants db → invariants (run_call db c) ∧ grows db (run_call db c).
Proof.
  intros Hinv. destruct c; simpl.
  - by apply add_user_step.
  - unfold set_admin. destruct (users db !! user_id) eqn:Hu; [|done].
    by apply set_status_step.
  - unfold ban_user. destruct (users db !! user_id) eqn:Hu; [|done].
    by apply set_status_step.
  - unfold unban_user. destruct (users db !! user_id) eqn:Hu; [|done].
    destruct (decide _); [|done]. by apply set_status_step.
  - by apply add_message_step.
  - by apply init_roles_step.
  - by apply assign_role_step.
  - by apply release_role_step.
  - by apply release_roles_by_user_step.
  - by apply save_role_message_step.
  - by apply message_counter_step.
Qed.

Lemma run_step calls : ∀ db,
  invariants db → invariants (run db calls) ∧ grows db (run db calls).
Proof.
  induction calls as [|c calls IH]; intros db Hinv; [done|].
  unfold run. simpl.
  destruct (run_call_step db c Hinv) as [Hinv1 (Hu1 & Hn1 & Hm1)].
  destruct (IH _ Hinv1) as [Hinv2 (Hu2 & Hn2 & Hm2)].
  split; [done|]. split_and!; [by eauto|by eauto|by etrans].
Qed.

Lemma empty_invariants : invariants empty_db.
Proof.
  split_and!; [apply Invariant.empty_db_wf|done|].
  split; simpl.
  - intros m Hin. by apply elem_of_nil in Hin.
  - intros r u Hin. by apply elem_of_nil in Hin.
Qed.

End Runs.

(** X21. Every state the manager builds from the empty database, by any
    sequence of its mutating calls and of counted messages, has unique role
    names, at most one board per game type, user rows keyed by their id, and
    only messages and role occupants that point to a stored user. *)
Theorem run_keeps_invariants calls :
  let db := run empty_db calls in
  db_wf db ∧ users_keyed db ∧ references_kept db.
Proof.
  intros db. subst db.
  by destruct (Runs.run_step calls empty_db Runs.empty_invariants) as [? _].
Qed.

(** X22. Nothing is ever removed: along any sequence of calls from a state
    that satisfies the invariants a stored user stays stored, a role name
    stays a role name, and the recorded messages stay, in order, at the
    front of the message table. *)
Theorem run_only_grows db calls :
  db_wf db → users_keyed db → references_kept db →
  (∀ u, is_Some (users db !! u) → is_Some (users (run db calls) !! u)) ∧
  (∀ name, name ∈ map Role.name (roles db) →
     name ∈ map Role.name (roles (run db calls))) ∧
  user_messages db `prefix_of` user_messages (run db calls).
Proof.
  intros Hwf Hk Hrefs.
  by destruct (Runs.run_step calls db (conj Hwf (conj Hk Hrefs))) as [_ ?].
Qed.

(** X23. In a state built from the empty database no role operation raises:
    assignment and release return a boolean, the release of a user's roles a
    count, the board update a boolean, seeding and posting a board
    complete. *)
Theorem run_then_no_exception calls :
  let db := run empty_db calls in
  (∀ role_name user_id bot,
     ∃ b, returned (assign_role db role_name user_id bot) = Ok b) ∧
  (∀ role_name bot, ∃ b, returned (release_role db role_name bot) = Ok b) ∧
  (∀ user_id bot, ∃ n, returned (release_roles_by_user db user_id bot) = Ok n) ∧
  (∀ game_type bot, ∃ b, (update_role_message db game_type bot).1 = Ok b) ∧
  (∀ new_roles, (init_roles db new_roles).1 = Ok tt) ∧
  (∀ game_type channel_id message_id message_text,
     (save_role_message db game_type channel_id message_id message_text).1 = Ok tt).
Proof.
  intros db.
  assert (Hwf : db_wf db).
  { by destruct (Runs.run_step calls empty_db Runs.empty_invariants) as [[? _] _]. }
  clearbody db. split_and!.
  - intros role_name user_id bot. unfold assign_role.
    destruct (RoleFacts.select_role_cases db role_name Hwf)
      as [[-> _]|(role & -> & _)]; simpl; [by eauto|].
    destruct (Role.occupied_by role); [by eauto|].
    destruct (users db !! user_id); [|by eauto].
    destruct (decide _); [by eauto|].
    destruct (Invariant.update_board_then_return_ok
                (write_occupied_by db role_name (Some user_id)) role bot true)
      as [-> _]; [by apply Invariant.write_occupied_by_wf|by eauto].
  - intros role_name bot. unfold release_role.
    destruct (RoleFacts.select_role_cases db role_name Hwf)
      as [[-> _]|(role & -> & _)]; simpl; [by eauto|].
    destruct (Role.occupied_by role); [|by eauto].
    destruct (Invariant.update_board_then_return_ok
                (write_occupied_by db role_name None) role bot true)
      as [-> _]; [by apply Invariant.write_occupied_by_wf|by eauto].
  - intros user_id bot. unfold release_roles_by_user.
    destruct (filter _ (roles db)); [by eauto|].
    destruct bot as [bot|]; [|by eauto].
    set (db' := set_roles db _).
    assert (Hwf' : db_wf db').
    { apply HeldRoles.set_roles_map_wf; [|done]. intros r. by destruct (decide _). }
    destruct (Invariant.update_role_message_returns db' (lit "genshin") bot Hwf')
      as (b1 & e1 & ->).
    destruct (Invariant.update_role_message_returns db' (lit "hsr") bot Hwf')
      as (b2 & e2 & ->).
    by eauto.
  - intros game_type bot.
    destruct (Invariant.update_role_message_returns db game_type bot Hwf)
      as (b & edits & ->). by eauto.
  - intros new_roles. unfold init_roles.
    by destruct (Seeding.init_roles_loop_spec new_roles (roles db) (proj1 Hwf))
      as (table & -> & _).
  - intros game_type channel_id message_id message_text. unfold save_role_message.
    by destruct (filter_key_cases RoleMessage.game_type game_type _ (proj2 Hwf))
      as [[-> _]|(x & -> & _)].
Qed.

(** ** The further properties at the sample data *)

Ltac sample_keyed :=
  match goal with
  | |- users_keyed ?db =>
      apply (bool_decide_unpack (map_Forall (λ k u, User.id u = k) (users db)));
      by_computation
  end.

Ltac sample_elem :=
  apply list_elem_of_In; vm_compute; tauto.

Lemma release_role_succeeds_witness :
  db_wf Sample2.db_albedo ∧
  returned (release_role Sample2.db_albedo Sample.albedo (Some Sample.bot)) = Ok true ∧
  get_role_by_name
    (stored (release_role Sample2.db_albedo Sample.albedo (Some Sample.bot)))
    Sample.albedo
  = Ok (Some (Role.mk Sample.albedo MONDSTADT None)).
Proof.
  assert (Hwf : db_wf Sample2.db_albedo) by sample_wf.
  split; [exact Hwf|].
  assert (Hin : Role.mk Sample.albedo MONDSTADT (Some 42) ∈ roles Sample2.db_albedo)
    by sample_elem.
  destruct (release_role_succeeds Sample2.db_albedo Sample.albedo (Some Sample.bot)
              (Role.mk Sample.albedo MONDSTADT (Some 42)) 42 Hwf Hin eq_refl eq_refl)
    as (H1 & H2 & _).
  by split.
Defined.

Lemma assign_then_release_restores_witness :
  db_wf Sample.db_roles ∧
  returned (assign_role Sample.db_roles Sample.albedo 42 None) = Ok true ∧
  stored (release_role (stored (assign_role Sample.db_roles Sample.albedo 42 None))
            Sample.albedo None)
  = Sample.db_roles.
Proof.
  assert (Hwf : db_wf Sample.db_roles) by sample_wf.
  assert (Htrue : returned (assign_role Sample.db_roles Sample.albedo 42 None) = Ok true)
    by by_computation.
  split_and!; [exact Hwf|exact Htrue|].
  by destruct (assign_then_release_restores Sample.db_roles Sample.albedo 42 None None
                 Hwf Htrue) as [_ ?].
Defined.

Lemma release_roles_by_user_releases_witness :
  db_wf Sample2.db_held ∧
  get_roles_by_user Sample2.db_held 42 = [Sample.albedo; Sample.kafka] ∧
  get_roles_by_user
    (stored (release_roles_by_user Sample2.db_held 42 (Some Sample.bot))) 42 = [].
Proof.
  assert (Hwf : db_wf Sample2.db_held) by sample_wf.
  split_and!; [exact Hwf|by_computation|].
  by destruct (release_roles_by_user_releases Sample2.db_held 42 (Some Sample.bot) Hwf)
    as (_ & ? & _).
Defined.

Lemma assign_role_adds_one_role_witness :
  db_wf Sample2.db_albedo ∧
  returned (assign_role Sample2.db_albedo Sample.kafka 42 None) = Ok true ∧
  Sample.albedo
  ∈ get_roles_by_user (stored (assign_role Sample2.db_albedo Sample.kafka 42 None)) 42.
Proof.
  assert (Hwf : db_wf Sample2.db_albedo) by sample_wf.
  assert (Htrue : returned (assign_role Sample2.db_albedo Sample.kafka 42 None) = Ok true)
    by by_computation.
  split_and!; [exact Hwf|exact Htrue|].
  apply (assign_role_adds_one_role Sample2.db_albedo Sample.kafka 42 None Hwf Htrue).
  right. split; [by_computation|sample_elem].
Defined.

Lemma ban_user_keeps_roles_witness :
  db_wf Sample.db_roles ∧
  returned (assign_role Sample.db_roles Sample.albedo 42 None) = Ok true ∧
  assign_role (ban_user Sample2.db_albedo 42) Sample.albedo 99 None
  = mk_outcome (Ok false) (ban_user Sample2.db_albedo 42) [].
Proof.
  assert (Hwf : db_wf Sample.db_roles) by sample_wf.
  assert (Htrue : returned (assign_role Sample.db_roles Sample.albedo 42 None) = Ok true)
    by by_computation.
  split_and!; [exact Hwf|exact Htrue|].
  destruct (ban_user_keeps_roles Sample.db_roles Sample.albedo 42 None Hwf Htrue)
    as (_ & _ & Hrefused).
  exact (Hrefused 99 None).
Defined.

Lemma ban_then_assign_refused_witness :
  db_wf Sample.db_roles ∧
  assign_role (ban_user Sample.db_roles 42) Sample.albedo 42 (Some Sample.bot)
  = mk_outcome (Ok false) (ban_user Sample.db_roles 42) [].
Proof.
  assert (Hwf : db_wf Sample.db_roles) by sample_wf.
  split; [exact Hwf|].
  exact (ban_then_assign_refused Sample.db_roles Sample.albedo 42 (Some Sample.bot) Hwf).
Defined.

Lemma unban_after_ban_is_active_witness :
  users Sample.db_roles !! 99 = Some (User.mk 99 None None ADMIN) ∧
  get_user (unban_user (ban_user Sample.db_roles 99) 99) 99
  = Some (User.mk 99 None None ACTIVE).
Proof.
  assert (Hu : users Sample.db_roles !! 99 = Some (User.mk 99 None None ADMIN))
    by by_computation.
  split; [exact Hu|].
  rewrite (unban_after_ban_is_active Sample.db_roles 99 _ Hu).
  unfold get_user. simpl. apply lookup_insert_eq.
Defined.

Lemma init_roles_rerun_witness :
  db_wf Sample2.db_albedo ∧
  ∃ db',
    init_roles Sample2.db_albedo
      [(Sample.albedo, LIYUE); (lit "Zhongli", LIYUE); (lit "Zhongli", SUMERU)]
    = (Ok tt, db') ∧
    roles Sample2.db_albedo `prefix_of` roles db' ∧
    init_roles db'
      [(Sample.albedo, LIYUE); (lit "Zhongli", LIYUE); (lit "Zhongli", SUMERU)]
    = (Ok tt, db').
Proof.
  assert (Hwf : db_wf Sample2.db_albedo) by sample_wf.
  split; [exact Hwf|].
  destruct (init_roles_rerun Sample2.db_albedo
              [(Sample.albedo, LIYUE); (lit "Zhongli", LIYUE); (lit "Zhongli", SUMERU)]
              Hwf) as (db' & H1 & H2 & _ & _ & _ & H3).
  by exists db'.
Defined.

Lemma save_role_message_replaces_witness :
  db_wf Sample.db_boards ∧
  filter (λ m, RoleMessage.game_type m = lit "hsr")
    (role_messages
       (save_role_message Sample.db_boards (lit "hsr") 5 6 (lit "Kafka ")).2)
  = [RoleMessage.mk (lit "hsr") 5 6 (lit "Kafka ")].
Proof.
  assert (Hwf : db_wf Sample.db_boards) by sample_wf.
  split; [exact Hwf|].
  by destruct (save_role_message_replaces Sample.db_boards (lit "hsr") 5 6
                 (lit "Kafka ") Hwf) as (_ & ? & _).
Defined.

Lemma get_user_ids_sorted_filtered_witness :
  users_keyed Sample.db_roles ∧
  get_user_ids Sample.db_roles true true false = [99; 42] ∧
  (∀ id, id ∈ get_user_ids Sample.db_roles true false true ↔
     ∃ u, users Sample.db_roles !! id = Some u ∧
          (true = true → User.status u ≠ BANNED) ∧
          (false = false → User.status u ≠ ADMIN)).
Proof.
  assert (Hk : users_keyed Sample.db_roles) by sample_keyed.
  split_and!; [exact Hk|by_computation|].
  by destruct (get_user_ids_sorted_filtered Sample.db_roles true false true Hk)
    as (? & _).
Defined.

Lemma get_all_users_lists_users_witness :
  users_keyed Sample.db_roles ∧ NoDup (get_all_users Sample.db_roles false) ∧
  length (get_all_users Sample.db_roles false) = 2%nat.
Proof.
  assert (Hk : users_keyed Sample.db_roles) by sample_keyed.
  split_and!; [exact Hk| |by_computation].
  by destruct (get_all_users_lists_users Sample.db_roles false Hk) as (_ & ?).
Defined.

Lemma available_and_occupied_split_witness :
  get_available_roles Sample2.db_albedo None
  ++ get_occupied_roles Sample2.db_albedo None
  ≡ₚ roles Sample2.db_albedo.
Proof.
  by destruct (available_and_occupied_split Sample2.db_albedo None) as (_ & _ & ? & _).
Defined.

Lemma region_stats_consistent_witness :
  get_region_stats Sample2.db_albedo
  = [(HSR_STAR, (1, 0, 1)); (MONDSTADT, (1, 1, 0))] ∧
  1 = Z.of_nat (length (get_occupied_roles Sample2.db_albedo (Some MONDSTADT))).
Proof.
  assert (Hstats : get_region_stats Sample2.db_albedo
                   = [(HSR_STAR, (1, 0, 1)); (MONDSTADT, (1, 1, 0))])
    by by_computation.
  split; [exact Hstats|].
  destruct (region_stats_consistent Sample2.db_albedo) as (_ & _ & Hentry).
  apply (Hentry MONDSTADT 1 1 0). rewrite Hstats.
  apply list_elem_of_In. simpl. by right; left.
Defined.

Lemma add_message_counts_for_author_only_witness :
  get_message_stats
    (add_message Sample.db_messages 8 (lit "hello") None Sample.now) 7 Sample.now
  = get_message_stats Sample.db_messages 7 Sample.now.
Proof.
  apply (add_message_counts_for_author_only Sample.db_messages 8 (lit "hello") None
           Sample.now 7 Sample.now).
  lia.
Defined.

Lemma message_recorded_now_counts_everywhere_witness :
  PyDatetime.valid Sample.now ∧
  get_message_stats Sample.db_messages 7 Sample.now = Ok (0, 1, 0, 1) ∧
  get_message_stats
    (add_message Sample.db_messages 7 (lit "again") None Sample.now) 7 Sample.now
  = Ok (1, 2, 1, 2).
Proof.
  assert (Hv : PyDatetime.valid Sample.now) by sample_valid.
  assert (Hs : get_message_stats Sample.db_messages 7 Sample.now = Ok (0, 1, 0, 1))
    by by_computation.
  split_and!; [exact Hv|exact Hs|].
  exact (message_recorded_now_counts_everywhere Sample.db_messages 7 (lit "again")
           Sample.now 0 1 0 1 Hv eq_refl Hs).
Defined.

Lemma stats_without_messages_witness :
  PyDatetime.valid Sample.now ∧
  get_message_stats Sample.db_roles 42 Sample.now = Ok (0, 0, 0, 0).
Proof.
  assert (Hv : PyDatetime.valid Sample.now) by sample_valid.
  split; [exact Hv|].
  apply (stats_without_messages Sample.db_roles 42 Sample.now Hv).
  reflexivity.
Defined.

Lemma message_counter_ignores_witness :
  message_counter Sample.db_roles (MessageEvent Sample2.private_message) Sample.now
  = Sample.db_roles.
Proof.
  apply message_counter_ignores. right. exists Sample2.private_message.
  split; [reflexivity|]. left. split; discriminate.
Defined.

Lemma message_counter_records_witness :
  let db' := message_counter Sample.db_roles
               (MessageEvent Sample2.group_message) Sample.now in
  get_user db' 7
  = Some (User.mk 7 (Some (lit "neo")) (Some (lit "Thomas Anderson")) ACTIVE) ∧
  user_messages db'
  = [UserMessage.mk 7 (lit "photo")
       (PyDatetime.mk_datetime 2024 4 30 12 0 0 0 PyDatetime.utc)].
Proof.
  destruct (message_counter_records Sample.db_roles Sample2.group_message Sample.now
              (or_intror eq_refl) eq_refl) as (H1 & _ & H2 & _).
  split; [exact H1|exact H2].
Defined.

Lemma run_only_grows_witness :
  is_Some (users (run Sample.db_roles Sample2.calls) !! 5) ∧
  Sample.kafka ∈ map Role.name (roles (run Sample.db_roles Sample2.calls)).
Proof.
  assert (Hwf : db_wf Sample.db_roles) by sample_wf.
  assert (Hk : users_keyed Sample.db_roles) by sample_keyed.
  assert (Hr : references_kept Sample.db_roles).
  { split.
    - intros m Hin. by apply elem_of_nil in Hin.
    - intros r u Hin Ho. exfalso.
      apply list_elem_of_In in Hin. vm_compute in Hin.
      destruct Hin as [<-|[<-|[]]]; discriminate. }
  destruct (run_only_grows Sample.db_roles Sample2.calls Hwf Hk Hr) as (Hu & Hn & _).
  split.
  - apply Hu. eexists. by_computation.
  - apply Hn. sample_elem.
Defined.

Lemma update_role_message_sends_witness :
  db_wf Sample.db_board ∧
  update_role_message Sample.db_board (lit "hsr") Sample.bot = (Ok false, []).
Proof.
  assert (Hwf : db_wf Sample.db_board) by sample_wf.
  split; [exact Hwf|].
  destruct (update_role_message_sends Sample.db_board (lit "hsr") Sample.bot Hwf)
    as [[_ ?]|(m & Hin & Hgt & _)]; [done|].
  exfalso. apply list_elem_of_In in Hin. vm_compute in Hin.
  destruct Hin as [<-|[]]. discriminate.
Defined.

Lemma assign_role_occupied_refused_witness :
  db_wf Sample2.db_albedo ∧
  assign_role Sample2.db_albedo Sample.albedo 99 (Some Sample.bot)
  = mk_outcome (Ok false) Sample2.db_albedo [].
Proof.
  assert (Hwf : db_wf Sample2.db_albedo) by sample_wf.
  split; [exact Hwf|].
  apply (assign_role_occupied_refused Sample2.db_albedo Sample.albedo 99
           (Some Sample.bot) Hwf).
  exists (Role.mk Sample.albedo MONDSTADT (Some 42)), 42.
  split_and!; [sample_elem|reflexivity|reflexivity].
Defined.

(** ** The windows and the stored text *)

Module Windows.
Import PyDatetime.

(** [T.replace(tzinfo=timezone.utc)] stored and loaded is [T] again, for a
    naive [T]. *)
Lemma sqlite_datetime_of_naive T :
  tzinfo T = None → sqlite_datetime (replace_tzinfo T utc) = T.
Proof. destruct T as [y m d h mi s us tz]. simpl. by intros ->. Qed.

(** For values in UTC the order of the instants is the order of the stored
    wall-clock values the engine compares. *)
Lemma ge_utc_stored_order a b :
  tzinfo a = utc → tzinfo b = utc →
  ge a b = ge (sqlite_datetime a) (sqlite_datetime b).
Proof.
  intros Ha Hb. unfold ge, utc_micros, sqlite_datetime, replace_tzinfo, toordinal.
  simpl. by rewrite Ha, Hb.
Qed.

(** So on a store whose timestamps are all in UTC, and for a boundary in
    UTC, [_count_from] is the count the engine makes over the stored rows. *)
Lemma count_from_stored_order db user_id since :
  Forall (λ m, tzinfo (UserMessage.created_at m) = utc) (user_messages db) →
  tzinfo since = utc →
  _count_from db user_id since
  = Z.of_nat (length (filter
      (λ m, UserMessage.user_id m = user_id
            ∧ ge (UserMessage.created_at m) (sqlite_datetime since) = true)
      (load_message <$> user_messages db))).
Proof.
  intros Hall Hs. unfold _count_from. f_equal.
  induction Hall as [|m l Hm _ IH]; [done|].
  rewrite fmap_cons, !filter_cons. simpl.
  rewrite <- (ge_utc_stored_order _ _ Hm Hs).
  destruct (decide _) as [H|H]; simpl; by rewrite IH.
Qed.

Lemma year_of_epoch now :
  valid now → tzinfo now = utc → ge now epoch_start = true → 1970 <= year now.
Proof.
  intros (Hy & Hm & Hd & Hh & Hmi & Hs & Hus & _) Htz Hge.
  unfold ge in Hge. apply Z.leb_le in Hge.
  assert (Hord : 719163 <= toordinal now).
  { revert Hge. unfold utc_micros, epoch_start. rewrite Htz.
    change (toordinal (mk_datetime 1970 1 1 0 0 0 0 utc)) with 719163.
    simpl. lia. }
  destruct (Z_lt_le_dec (year now) 1970) as [Hlt|]; [exfalso|done].
  pose proof (CalendarFacts.day_of_year_bounds (year now) _ _ Hm Hd) as Hdoy.
  pose proof (CalendarFacts.days_before_next_year (year now)) as Hnext.
  pose proof (CalendarFacts.days_before_year_mono (year now + 1) 1970) as Hmono.
  change (days_before_year 1970) with 719162 in Hmono.
  unfold toordinal, ymd2ord in Hord. lia.
Qed.

End Windows.

(** X27. When the week of [now] began inside its month, that is when the
    weekday of [now] (Monday 0) is less than its day of the month, the four
    counts are in a chain: for every valid reading [now] of the UTC clock not
    before the epoch, [get_message_stats] returns
    [day <= week <= month <= total]. *)
Theorem message_stats_chain_when_week_in_month db user_id now :
  PyDatetime.valid now → PyDatetime.tzinfo now = PyDatetime.utc →
  PyDatetime.ge now epoch_start = true →
  PyDatetime.weekday now < PyDatetime.day now →
  ∃ day week month total,
    get_message_stats db user_id now = Ok (day, week, month, total) ∧
    stats_chain (day, week, month, total).
Proof.
  intros Hv Htz Hge Hin.
  destruct (StatsFacts.start_of_week_ok now Hv) as (ws & Hws & Hwsm).
  pose proof (StatsFacts.weekday_range now) as Hw.
  pose proof (Windows.year_of_epoch now Hv Htz Hge) as Hyear.
  unfold get_message_stats. rewrite Hws.
  eexists _, _, _, _. split; [reflexivity|].
  assert (Hmonth : PyDatetime.utc_micros (_start_of_month now)
                 = PyDatetime.ymd2ord (PyDatetime.year now) (PyDatetime.month now) 1
                   * 86400 * 1000000 - default 0 (PyDatetime.tzinfo now)).
  { unfold PyDatetime.utc_micros, _start_of_month,
      PyDatetime.replace_first_midnight, PyDatetime.toordinal. simpl. lia. }
  destruct Hv as (Hy & Hm & Hd & Hh & Hmi & Hs & Hus & _).
  unfold stats_chain. split_and!; apply StatsFacts.count_from_mono.
  - rewrite Hwsm. unfold _start_of_day. rewrite StatsFacts.utc_micros_midnight. lia.
  - rewrite Hwsm, Hmonth. unfold PyDatetime.toordinal, PyDatetime.ymd2ord. lia.
  - rewrite Hmonth, Htz.
    change (PyDatetime.utc_micros epoch_start) with (719163 * 86400 * 1000000).
    simpl.
    assert (1 <= 1 <= PyDatetime.days_in_month (PyDatetime.year now) (PyDatetime.month now))
      as H1 by lia.
    pose proof (CalendarFacts.day_of_year_bounds (PyDatetime.year now) _ _ Hm H1) as Hdoy.
    pose proof (CalendarFacts.days_before_year_mono 1970 (PyDatetime.year now) Hyear) as Hmono.
    change (PyDatetime.days_before_year 1970) with 719162 in Hmono.
    unfold PyDatetime.ymd2ord. lia.
Qed.

(** X28. What is read back after [add_message]: the messages of the user as
    before and, last, the new one. A naive timestamp [T] comes back as it was
    given, fields and no zone; without a timestamp the message comes back
    with the wall-clock fields of the clock reading [now] and no zone. *)
Theorem add_message_read_back db user_id message_text T now :
  PyDatetime.tzinfo T = None →
  select_user_messages (add_message db user_id message_text (Some T) now) user_id
  = select_user_messages db user_id ++ [UserMessage.mk user_id message_text T]
  ∧
  select_user_messages (add_message db user_id message_text None now) user_id
  = select_user_messages db user_id
    ++ [UserMessage.mk user_id message_text (PyDatetime.replace_tzinfo now None)].
Proof.
  intros Htz. unfold select_user_messages, add_message. simpl.
  rewrite Htz, !filter_app, !filter_cons_True by done.
  rewrite !map_app. simpl. unfold load_message at 2 4. simpl.
  split; [|done].
  by rewrite (Windows.sqlite_datetime_of_naive T Htz).
Qed.

Lemma message_stats_chain_when_week_in_month_witness :
  PyDatetime.valid Fixture.midweek ∧
  ∃ day week month total,
    get_message_stats Fixture.db Fixture.test_user Fixture.midweek
    = Ok (day, week, month, total) ∧
    stats_chain (day, week, month, total).
Proof.
  assert (Hv : PyDatetime.valid Fixture.midweek) by sample_valid.
  split; [exact Hv|].
  apply (message_stats_chain_when_week_in_month Fixture.db Fixture.test_user
           Fixture.midweek Hv); [reflexivity|reflexivity|by_computation].
Defined.

Lemma add_message_read_back_witness :
  select_user_messages
    (add_message Sample.db_messages 7 (lit "again") (Some Sample.tuesday) Sample.now) 7
  = [ UserMessage.mk 7 (lit "hi") (PyDatetime.mk_datetime 2024 4 30 12 0 0 0 None);
      UserMessage.mk 7 (lit "again") (PyDatetime.mk_datetime 2024 4 30 12 0 0 0 None) ]
  ∧
  select_user_messages
    (add_message Sample.db_messages 7 (lit "again") None Sample.now) 7
  = [ UserMessage.mk 7 (lit "hi") (PyDatetime.mk_datetime 2024 4 30 12 0 0 0 None);
      UserMessage.mk 7 (lit "again") (PyDatetime.mk_datetime 2024 5 2 12 0 0 0 None) ].
Proof.
  exact (add_message_read_back Sample.db_messages 7 (lit "again")
           Sample.tuesday Sample.now eq_refl).
Defined.
